(** * pysolhttpclient: the pooled, dual-backend HTTP client

    A shallow embedding of [pysolhttpclient/Http/HttpClient.py] (class
    [HttpClient]) and the properties of its pool registries, backend
    selection, method dispatch, header merging and deadline handling.

    The module is Python 2 code ([iteritems], [logger.warn]): [str] is a byte
    string and [/] on two [int]s is floor division.  Calls to [logger] have no
    effect on the values studied here and are left out. *)

From stdpp Require Import gmap strings pretty list fin_maps.
From Stdlib Require Import Ascii ZArith QArith.

Local Open Scope string_scope.

(** ** Python values *)

(** [str(b)] for a [bool], as [str.format] prints it. *)
Definition py_str_bool (b : bool) : string := if b then "True" else "False".

(** [str(n)] for an [int]. *)
Definition py_str_int (n : Z) : string := pretty n.

(** [str(o)] for a value that may be [None]. *)
Definition py_str_opt {A} (f : A -> string) (o : option A) : string :=
  match o with
  | None => "None"
  | Some a => f a
  end.

(** Truth value of a [str]: only the empty string is false. *)
Definition truthy_str (s : string) : bool :=
  match s with
  | EmptyString => false
  | String _ _ => true
  end.

(** Truth value of a [str] that may be [None]. *)
Definition truthy_opt_str (o : option string) : bool :=
  match o with
  | None => false
  | Some s => truthy_str s
  end.

(** Truth value of an [int] that may be [None]. *)
Definition truthy_opt_int (o : option Z) : bool :=
  match o with
  | None => false
  | Some n => negb (n =? 0)%Z
  end.

(** [len(s)] of a byte string. *)
Definition py_len (s : string) : Z := Z.of_nat (String.length s).

(** ** Collaborators: URL, request, response *)

(** [geventhttpclient.client.PROTO_HTTPS]. *)
Definition PROTO_HTTPS : string := "https".

(** [geventhttpclient.url.URL], by the attributes the client reads.  The
    [path] attribute may be missing, which [_go_gevent] patches. *)
Module URL.
Record t := mk {
    host : string;
    port : Z;
    scheme : string;
    path : option string;
    query : string
  }.

Definition set_path (p : string) (u : t) : t :=
    mk (host u) (port u) (scheme u) (Some p) (query u).

(** [url.request_uri]: the path, followed by the query when there is one. *)
Definition request_uri (u : t) : string :=
    default "" (path u) ++ (if truthy_str (query u) then "?" ++ query u else "").
End URL.

(** The three values of [force_http_implementation]. *)
Definition HTTP_IMPL_AUTO : option Z := None.
Definition HTTP_IMPL_GEVENT : Z := 1.
Definition HTTP_IMPL_URLLIB3 : Z := 3.

(** Modelled from the spec: the class [HttpRequest] is imported by the
    client and not part of its file; the fields are those the client reads,
    which section 3 of the specification lists.  [method], [post_data], the
    proxy host and port and the forced implementation may be [None]. *)
Module HttpRequest.
Record t := mk {
    uri : string;
    method : option string;
    post_data : option string;
    headers : gmap string string;
    connection_timeout_ms : Z;
    network_timeout_ms : Z;
    general_timeout_ms : Z;
    http_concurrency : Z;
    https_insecure : bool;
    disable_ipv6 : bool;
    http_proxy_host : option string;
    http_proxy_port : option Z;
    force_http_implementation : option Z
  }.

(** The request [r] with other connection and network timeouts, and every
    other field as it is. *)
Definition with_timeouts (connection_ms network_ms : Z) (r : t) : t :=
  mk (uri r) (method r) (post_data r) (headers r) connection_ms network_ms
     (general_timeout_ms r) (http_concurrency r) (https_insecure r)
     (disable_ipv6 r) (http_proxy_host r) (http_proxy_port r)
     (force_http_implementation r).
End HttpRequest.

(** Every exception the client raises is a plain [Exception] told apart by
    its message; one constructor per message format of the source.
    - [GeventPoolMaxed cur max]: ["gevent pool maxed, cur={0}, max={1}"]
    - [U3PoolMaxed cur max]: ["u3 pool maxed, cur={0}, max={1}"]
    - [InvalidForceHttpImplementation]: ["Invalid force_http_implementation"]
    - [UnsupportedGeventMethod m]: ["Unsupported gevent method={0}"]
    - [InvalidGeventMethod m]: ["Invalid gevent method={0}"]
    - [NoResponseFromHttp]: ["No response from http"]
    - [InvalidUrllib3Method m]: ["Invalid urllib3 method={0}"]
    - [TimeoutWhileProcessing s]:
      ["Timeout while processing, general_timeout_sec={0}"]
    - [CollaboratorError what]: an [Exception] raised inside a collaborator
      (URL parsing, the gevent client, urllib3). *)
Inductive PyException :=
| GeventPoolMaxed (cur max : nat)
| U3PoolMaxed (cur max : nat)
| InvalidForceHttpImplementation
| UnsupportedGeventMethod (m : string)
| InvalidGeventMethod (m : string)
| NoResponseFromHttp
| InvalidUrllib3Method (m : string)
| TimeoutWhileProcessing (general_timeout_sec : Q)
| CollaboratorError (what : string).

(** A header value of a response: one string, or the list of the values
    merged under the name. *)
Inductive HeaderValue :=
| Scalar (v : string)
| Multi (vs : list string).

(** Modelled from the spec: the class [HttpResponse] is imported by the
    client and not part of its file; the fields are those the client writes
    (section 3 of the specification), each starting at its zero value. *)
Module HttpResponse.
Record t := mk {
    http_request : option HttpRequest.t;
    http_implementation : option Z;
    status_code : Z;
    buffer : option string;
    content_length : Z;
    headers : gmap string HeaderValue;
    elapsed_ms : option Z;
    exception : option PyException
  }.

(** [HttpResponse()].  The specification names no headers of a new
    response; they are taken to be none here, and the properties that speak
    of them do so as [headers __init__]. *)
Definition __init__ : t := mk None None 0 None 0 ∅ None None.

Definition set_http_request v (r : t) : t :=
    mk v (http_implementation r) (status_code r) (buffer r) (content_length r)
       (headers r) (elapsed_ms r) (exception r).
Definition set_http_implementation v (r : t) : t :=
    mk (http_request r) v (status_code r) (buffer r) (content_length r)
       (headers r) (elapsed_ms r) (exception r).
Definition set_status_code v (r : t) : t :=
    mk (http_request r) (http_implementation r) v (buffer r) (content_length r)
       (headers r) (elapsed_ms r) (exception r).
Definition set_buffer v (r : t) : t :=
    mk (http_request r) (http_implementation r) (status_code r) v (content_length r)
       (headers r) (elapsed_ms r) (exception r).
Definition set_content_length v (r : t) : t :=
    mk (http_request r) (http_implementation r) (status_code r) (buffer r) v
       (headers r) (elapsed_ms r) (exception r).
Definition set_headers v (r : t) : t :=
    mk (http_request r) (http_implementation r) (status_code r) (buffer r)
       (content_length r) v (elapsed_ms r) (exception r).
Definition set_elapsed_ms v (r : t) : t :=
    mk (http_request r) (http_implementation r) (status_code r) (buffer r)
       (content_length r) (headers r) v (exception r).
Definition set_exception v (r : t) : t :=
    mk (http_request r) (http_implementation r) (status_code r) (buffer r)
       (content_length r) (headers r) (elapsed_ms r) v.
End HttpResponse.

(** ** Pool entries *)

(** [geventhttpclient.client.HTTPClient], by the arguments [from_url] is
    given.  [from_url] is taken to return; when it raises (inside the lock
    of [gevent_from_pool], before the entry is stored) nothing is stored, and
    what is proved of a new entry is proved of calls that return. *)
Module HTTPClient.
Record t := from_url {
    url : URL.t;
    insecure : bool;
    disable_ipv6 : bool;
    connection_timeout : Z;
    network_timeout : Z;
    concurrency : Z;
    proxy_host : option string;
    proxy_port : option Z;
    headers : gmap string string
  }.
End HTTPClient.

(** [urllib3.PoolManager(num_pools, maxsize)] *)
Record PoolManager := mkPoolManager { num_pools : Z; maxsize : Z }.

(** [urllib3.ProxyManager(num_pools, maxsize, proxy_url)], by its arguments.
    The constructor is taken to return; when it raises (inside the lock of
    [urllib3_from_pool], before the entry is stored) nothing is stored, and
    what is proved of a new entry is proved of calls that return. *)
Record ProxyManager := mkProxyManager {
  proxy_num_pools : Z;
  proxy_maxsize : Z;
  proxy_url : string
}.

(** What [urllib3_from_pool] returns: the basic pool or a proxy manager. *)
Inductive U3Pool :=
| BasicPool (p : PoolManager)
| ProxyPool (p : ProxyManager).

(** The object [urlopen] is called on: the proxy manager itself, or the
    connection pool [connection_from_url] returned. *)
Inductive U3Conn :=
| PoolItself (pool : U3Pool)
| ConnectionFromUrl (pool : U3Pool) (uri : string).

(** ** The client object *)

(** The attributes [HttpClient.__init__] sets.  The two [Lock]s are free
    between calls; their use is recorded as events (below). *)
Record HttpClient := mkHttpClient {
  _gevent_pool_max : nat;
  _gevent_pool : gmap string HTTPClient.t;
  _u3_basic_pool : PoolManager;
  _u3_proxy_pool_max : nat;
  _u3_proxy_pool : gmap string ProxyManager
}.

(** [HttpClient()] *)
Definition HttpClient__init__ : HttpClient :=
  {| _gevent_pool_max := 1024;
     _gevent_pool := ∅;
     _u3_basic_pool := mkPoolManager 1024 1024;
     _u3_proxy_pool_max := 1024;
     _u3_proxy_pool := ∅ |}.

Definition set_gevent_pool (p : gmap string HTTPClient.t) (c : HttpClient) : HttpClient :=
  mkHttpClient (_gevent_pool_max c) p (_u3_basic_pool c)
               (_u3_proxy_pool_max c) (_u3_proxy_pool c).

Definition set_u3_proxy_pool (p : gmap string ProxyManager) (c : HttpClient) : HttpClient :=
  mkHttpClient (_gevent_pool_max c) (_gevent_pool c) (_u3_basic_pool c)
               (_u3_proxy_pool_max c) p.

(** ** Effects *)

(** The two locks of the client. *)
Inductive Lock := _gevent_locker | _u3_proxy_locker.

(** The verbs of the gevent client's API used by [_go_gevent]. *)
Inductive GeventVerb := http_get | http_post | http_delete | http_head | http_put.

(** The [body] keyword argument of a backend call: left out, or given the
    request's [post_data] (which may be [None]). *)
Inductive BodyArg :=
| NoBody
| Body (post_data : option string).

(** What the client does to the outside, in the order it does it: lock
    traffic, the two factories of pool entries, and the backend calls. *)
Inductive Event :=
| Acquire (l : Lock)
| Release (l : Lock)
| EvHTTPClient_from_url (c : HTTPClient.t)
| EvProxyManager (p : ProxyManager)
| EvGevent (c : HTTPClient.t) (verb : GeventVerb) (request_uri : string)
           (body : BodyArg) (headers : gmap string string)
| EvUrlopen (conn : U3Conn) (method : string) (url : string)
            (body : BodyArg) (headers : gmap string string).

(** The state a call runs in: the client object, the response object being
    filled, the deadline armed by [gevent.with_timeout], and the events so far.
    [timer = Some n] means that [n] more switches to the hub pass and the next
    one delivers [Timeout]; [None] means no deadline is armed. *)
Record Machine := mkMachine {
  self : HttpClient;
  http_response : HttpResponse.t;
  timer : option nat;
  trace : list Event
}.

Definition set_self v (m : Machine) : Machine :=
  mkMachine v (http_response m) (timer m) (trace m).
Definition set_http_response v (m : Machine) : Machine :=
  mkMachine (self m) v (timer m) (trace m).
Definition set_timer v (m : Machine) : Machine :=
  mkMachine (self m) (http_response m) v (trace m).
Definition set_trace v (m : Machine) : Machine :=
  mkMachine (self m) (http_response m) (timer m) v.

(** How a call ends.  [gevent.Timeout] derives from [BaseException]: an
    [except Exception] clause does not catch it. *)
Inductive Outcome (A : Type) :=
| Return (a : A)
| RaiseException (e : PyException)
| RaiseTimeout.
Arguments Return {A} a.
Arguments RaiseException {A} e.
Arguments RaiseTimeout {A}.

(** Computations over the machine. *)
Definition M (A : Type) : Type := Machine -> Outcome A * Machine.

Definition ret {A} (a : A) : M A := fun m => (Return a, m).

Definition bind {A B} (c : M A) (k : A -> M B) : M B := fun m =>
  match c m with
  | (Return a, m') => k a m'
  | (RaiseException e, m') => (RaiseException e, m')
  | (RaiseTimeout, m') => (RaiseTimeout, m')
  end.

Declare Scope py_scope.
Delimit Scope py_scope with py.
Notation "x <- c ;; k" := (bind c (fun x => k))
  (at level 100, c at next level, right associativity) : py_scope.
Notation "c ;; k" := (bind c (fun _ => k))
  (at level 100, right associativity) : py_scope.
Local Open Scope py_scope.

(** [raise e] *)
Definition raise {A} (e : PyException) : M A := fun m => (RaiseException e, m).

(** An update of the client object, of the response object, of the trace. *)
Definition modify_self (f : HttpClient -> HttpClient) : M unit :=
  fun m => (Return tt, set_self (f (self m)) m).
Definition modify_response (f : HttpResponse.t -> HttpResponse.t) : M unit :=
  fun m => (Return tt, set_http_response (f (http_response m)) m).
Definition emit (e : Event) : M unit :=
  fun m => (Return tt, set_trace (trace m ++ [e]) m).
Definition get_self : M HttpClient := fun m => (Return (self m), m).
Definition get_response : M HttpResponse.t := fun m => (Return (http_response m), m).

(** [SolBase.sleep(0)]: a switch to the hub; an armed deadline that is due is
    delivered here. *)
Definition sleep0 : M unit := fun m =>
  match timer m with
  | None => (Return tt, m)
  | Some (S n) => (Return tt, set_timer (Some n) m)
  | Some O => (RaiseTimeout, set_timer None m)
  end.

(** The result of a call into a collaborator: a value or an [Exception]. *)
Inductive Try (A : Type) :=
| Ok (a : A)
| Err (what : string).
Arguments Ok {A} a.
Arguments Err {A} what.

(** A collaborator call that does not wait. *)
Definition call {A} (r : Try A) : M A :=
  match r with
  | Ok a => ret a
  | Err what => raise (CollaboratorError what)
  end.

(** A collaborator call that waits on the network: the greenlet switches to
    the hub until the result is there. *)
Definition io {A} (r : Try A) : M A := sleep0 ;; call r.

(** [with lock: body]: the lock is released however [body] ends. *)
Definition with_lock {A} (l : Lock) (body : M A) : M A := fun m =>
  let (o, m') := body (set_trace (trace m ++ [Acquire l]) m) in
  (o, set_trace (trace m' ++ [Release l]) m').

(** [try: body / except Exception as e: handler e] *)
Definition try_except_Exception {A} (body : M A) (handler : PyException -> M A) : M A :=
  fun m =>
    match body m with
    | (RaiseException e, m') => handler e m'
    | r => r
    end.

(** [try: body / except Timeout: handler] *)
Definition try_except_Timeout {A} (body : M A) (handler : M A) : M A :=
  fun m =>
    match body m with
    | (RaiseTimeout, m') => handler m'
    | r => r
    end.

(** [try: body / finally: final] *)
Definition try_finally {A} (body : M A) (final : M unit) : M A :=
  fun m =>
    let (o, m') := body m in
    match final m' with
    | (Return _, m'') => (o, m'')
    | (RaiseException e, m'') => (RaiseException e, m'')
    | (RaiseTimeout, m'') => (RaiseTimeout, m'')
    end.

(** [gevent.with_timeout(seconds, f, ...)]: arms the deadline, runs [f] in the
    calling greenlet and cancels the deadline however [f] ends.  [expiry] is
    the number of switches to the hub that pass before [seconds] have elapsed
    ([None]: [f] is over first). *)
Definition with_timeout {A} (seconds : Q) (expiry : option nat) (f : M A) : M A :=
  fun m =>
    let (o, m') := f (set_timer expiry m) in
    (o, set_timer None m').

(** ** The replies of the backends *)

(** The response object of the gevent client. *)
Module GeventResponse.
Record t := mk {
  status_code : Z;
  content_length : option Z;
  read : Try string;
  _headers_index : list (string * string)
}.
End GeventResponse.

(** The response object of urllib3. *)
Module U3Response.
Record t := mk {
  status : Z;
  headers : list (string * string);
  data : string
}.
End U3Response.

(** Everything outside the client that a call depends on. *)
Record World := mkWorld {
  (** [URL(uri)] *)
  URL_new : string -> Try URL.t;
  (** [http.get], [http.post], ...: a response object, a false value, or an
      exception *)
  gevent_request : HTTPClient.t -> GeventVerb -> string -> BodyArg ->
                   gmap string string -> Try (option GeventResponse.t);
  (** [cur_pool.connection_from_url(uri)] *)
  connection_from_url : U3Pool -> string -> Try U3Conn;
  (** [conn.urlopen(method, url, body, headers, redirect=False, retries)] *)
  urlopen : U3Conn -> string -> string -> BodyArg -> gmap string string ->
            Try U3Response.t;
  (** when the general timeout expires, counted in switches to the hub *)
  deadline : option nat;
  (** [SolBase.msdiff(ms)] when the call is over *)
  msdiff : Z
}.

(** ** The methods of [HttpClient] *)

(** [HttpClient._add_header(d, k, v)]; the dict [d] is updated in place in
    the source and returned here. *)
Definition _add_header (d : gmap string HeaderValue) (k v : string) :
  gmap string HeaderValue :=
  match d !! k with
  | None => <[k := Scalar v]> d
  | Some (Multi vs) => <[k := Multi (vs ++ [v])]> d
  | Some (Scalar v0) => <[k := Multi [v0; v]]> d
  end.

(** [for k, v in items: HttpClient._add_header(d, k, v)] *)
Definition add_headers (items : list (string * string)) (d : gmap string HeaderValue) :
  gmap string HeaderValue :=
  fold_left (fun d kv => _add_header d kv.1 kv.2) items d.

(** The key of [gevent_from_pool]:
    ["{0}#{1}#{2}#{3}#{4}#{5}#{6}#{7}#{8}#{9}#".format(...)]. *)
Definition gevent_pool_key (url : URL.t) (http_request : HttpRequest.t) : string :=
  URL.host url ++ "#" ++
  py_str_int (URL.port url) ++ "#" ++
  py_str_bool (String.eqb (URL.scheme url) PROTO_HTTPS) ++ "#" ++
  py_str_bool (HttpRequest.https_insecure http_request) ++ "#" ++
  py_str_bool (HttpRequest.disable_ipv6 http_request) ++ "#" ++
  py_str_int (HttpRequest.connection_timeout_ms http_request `div` 1000) ++ "#" ++
  py_str_int (HttpRequest.network_timeout_ms http_request `div` 1000) ++ "#" ++
  py_str_int (HttpRequest.http_concurrency http_request) ++ "#" ++
  py_str_opt id (HttpRequest.http_proxy_host http_request) ++ "#" ++
  py_str_opt py_str_int (HttpRequest.http_proxy_port http_request) ++ "#".

(** [HttpClient.gevent_from_pool(url, http_request)] *)
Definition gevent_from_pool (url : URL.t) (http_request : HttpRequest.t) :
  M HTTPClient.t :=
  let key := gevent_pool_key url http_request in
  c <- get_self ;;
  match _gevent_pool c !! key with
  | Some http =>
      sleep0 ;;
      ret http
  | None =>
      with_lock _gevent_locker (
        c <- get_self ;;
        if (_gevent_pool_max c <=? size (_gevent_pool c))%nat then
          raise (GeventPoolMaxed (size (_gevent_pool c)) (_gevent_pool_max c))
        else
          let http :=
            HTTPClient.from_url
              url
              (HttpRequest.https_insecure http_request)
              (HttpRequest.disable_ipv6 http_request)
              (HttpRequest.connection_timeout_ms http_request `div` 1000)
              (HttpRequest.network_timeout_ms http_request `div` 1000)
              (HttpRequest.http_concurrency http_request)
              (HttpRequest.http_proxy_host http_request)
              (HttpRequest.http_proxy_port http_request)
              ∅ in
          emit (EvHTTPClient_from_url http) ;;
          modify_self (fun c => set_gevent_pool (<[key := http]> (_gevent_pool c)) c) ;;
          sleep0 ;;
          ret http)
  end.

(** The key of the proxy registry: ["{0}#{1}#".format(host, port)]. *)
Definition u3_proxy_pool_key (http_request : HttpRequest.t) : string :=
  py_str_opt id (HttpRequest.http_proxy_host http_request) ++ "#" ++
  py_str_opt py_str_int (HttpRequest.http_proxy_port http_request) ++ "#".

(** [HttpClient.urllib3_from_pool(http_request)] *)
Definition urllib3_from_pool (http_request : HttpRequest.t) : M U3Pool :=
  if negb (truthy_opt_str (HttpRequest.http_proxy_host http_request)) then
    sleep0 ;;
    c <- get_self ;;
    ret (BasicPool (_u3_basic_pool c))
  else
    let key := u3_proxy_pool_key http_request in
    c <- get_self ;;
    match _u3_proxy_pool c !! key with
    | Some p =>
        sleep0 ;;
        ret (ProxyPool p)
    | None =>
        with_lock _u3_proxy_locker (
          c <- get_self ;;
          if (_u3_proxy_pool_max c <=? size (_u3_proxy_pool c))%nat then
            raise (U3PoolMaxed (size (_u3_proxy_pool c)) (_u3_proxy_pool_max c))
          else
            let proxy_url :=
              "http://" ++ py_str_opt id (HttpRequest.http_proxy_host http_request)
              ++ ":" ++ py_str_opt py_str_int (HttpRequest.http_proxy_port http_request) in
            let p := mkProxyManager 1024 1024 proxy_url in
            emit (EvProxyManager p) ;;
            modify_self (fun c => set_u3_proxy_pool (<[key := p]> (_u3_proxy_pool c)) c) ;;
            sleep0 ;;
            ret (ProxyPool p))
    end.

Section Exec.

Variable w : World.

(** The gevent client's [get], [post], [delete], [head], [put]. *)
Definition gevent_call (http : HTTPClient.t) (verb : GeventVerb) (request_uri : string)
  (body : BodyArg) (headers : gmap string string) : M (option GeventResponse.t) :=
  emit (EvGevent http verb request_uri body headers) ;;
  io (gevent_request w http verb request_uri body headers).

(** The call [_go_gevent] fires, by the request's method (the [if not
    http_request.method: ... else: ...] statement). *)
Definition gevent_fire (http : HTTPClient.t) (url : URL.t) (http_request : HttpRequest.t) :
  M (option GeventResponse.t) :=
  let request_uri := URL.request_uri url in
  let post_data := HttpRequest.post_data http_request in
  let headers := HttpRequest.headers http_request in
  if negb (truthy_opt_str (HttpRequest.method http_request)) then
    if truthy_opt_str post_data then
      gevent_call http http_post request_uri (Body post_data) headers
    else
      gevent_call http http_get request_uri NoBody headers
  else
    let method := default "" (HttpRequest.method http_request) in
    if String.eqb method "GET" then
      gevent_call http http_get request_uri NoBody headers
    else if String.eqb method "DELETE" then
      gevent_call http http_delete request_uri (Body post_data) headers
    else if String.eqb method "HEAD" then
      gevent_call http http_head request_uri NoBody headers
    else if String.eqb method "PUT" then
      gevent_call http http_put request_uri (Body post_data) headers
    else if String.eqb method "POST" then
      gevent_call http http_post request_uri (Body post_data) headers
    else if String.eqb method "PATCH" then
      raise (UnsupportedGeventMethod method)
    else if String.eqb method "OPTIONS" then
      raise (UnsupportedGeventMethod method)
    else if String.eqb method "TRACE" then
      raise (UnsupportedGeventMethod method)
    else
      raise (InvalidGeventMethod method).

(** The content length [_go_gevent] stores: the one the backend reports when
    it is true (neither [None] nor 0), else the length of the buffer, 0 for
    an empty one. *)
Definition gevent_content_length (reported : option Z) (buffer : string) : Z :=
  if truthy_opt_int reported then default 0%Z reported
  else if truthy_str buffer then py_len buffer
  else 0%Z.

(** [# Patch for path attribute error]: a URL without [path] gets ["/"]. *)
Definition patched (url : URL.t) : URL.t :=
  match URL.path url with
  | Some _ => url
  | None => URL.set_path "/" url
  end.

(** What [_go_gevent] does with the reply (from [# Check] to the end):
    [response.should_close()] has no effect on the response object. *)
Definition gevent_process (response : option GeventResponse.t) : M unit :=
  match response with
  | None => raise NoResponseFromHttp
  | Some response =>
      modify_response (HttpResponse.set_status_code (GeventResponse.status_code response)) ;;
      buffer <- io (GeventResponse.read response) ;;
      modify_response (HttpResponse.set_buffer (Some buffer)) ;;
      sleep0 ;;
      modify_response (HttpResponse.set_content_length
        (gevent_content_length (GeventResponse.content_length response) buffer)) ;;
      modify_response (fun r => HttpResponse.set_headers
        (add_headers (GeventResponse._headers_index response) (HttpResponse.headers r)) r) ;;
      sleep0
  end.

(** [HttpClient._go_gevent(http_request, http_response)] *)
Definition _go_gevent (http_request : HttpRequest.t) : M unit :=
  modify_response (HttpResponse.set_http_implementation (Some HTTP_IMPL_GEVENT)) ;;
  url <- call (URL_new w (HttpRequest.uri http_request)) ;;
  sleep0 ;;
  let url := patched url in
  http <- gevent_from_pool url http_request ;;
  sleep0 ;;
  response <- gevent_fire http url http_request ;;
  sleep0 ;;
  gevent_process response.

(** [conn.urlopen(...)] *)
Definition u3_urlopen (conn : U3Conn) (method : string) (url : string)
  (body : BodyArg) (headers : gmap string string) : M U3Response.t :=
  emit (EvUrlopen conn method url body headers) ;;
  io (urlopen w conn method url body headers).

(** The [method in [...]] tests of [_go_urllib3]. *)
Definition u3_no_body_methods : list string := ["GET"; "HEAD"; "OPTIONS"; "TRACE"].
Definition u3_body_methods : list string := ["POST"; "PUT"; "PATCH"; "DELETE"].
Definition py_in (s : string) (l : list string) : bool := existsb (String.eqb s) l.

(** The call [_go_urllib3] fires, by the request's method. *)
Definition u3_fire (conn : U3Conn) (http_request : HttpRequest.t) : M U3Response.t :=
  let uri := HttpRequest.uri http_request in
  let post_data := HttpRequest.post_data http_request in
  let headers := HttpRequest.headers http_request in
  if negb (truthy_opt_str (HttpRequest.method http_request)) then
    if truthy_opt_str post_data then
      u3_urlopen conn "POST" uri (Body post_data) headers
    else
      u3_urlopen conn "GET" uri NoBody headers
  else
    let method := default "" (HttpRequest.method http_request) in
    if py_in method u3_no_body_methods then
      u3_urlopen conn method uri NoBody headers
    else if py_in method u3_body_methods then
      u3_urlopen conn method uri (Body post_data) headers
    else
      raise (InvalidUrllib3Method method).

(** What [_go_urllib3] does with the reply (from [# Ok] to the end). *)
Definition u3_process (r : U3Response.t) : M unit :=
  modify_response (HttpResponse.set_status_code (U3Response.status r)) ;;
  modify_response (fun resp => HttpResponse.set_headers
    (add_headers (U3Response.headers r) (HttpResponse.headers resp)) resp) ;;
  modify_response (HttpResponse.set_buffer (Some (U3Response.data r))) ;;
  modify_response (fun resp => HttpResponse.set_content_length
    (py_len (default "" (HttpResponse.buffer resp))) resp) ;;
  sleep0.

(** [HttpClient._go_urllib3(http_request, http_response)] *)
Definition _go_urllib3 (http_request : HttpRequest.t) : M unit :=
  modify_response (HttpResponse.set_http_implementation (Some HTTP_IMPL_URLLIB3)) ;;
  cur_pool <- urllib3_from_pool http_request ;;
  sleep0 ;;
  conn <- (if truthy_opt_str (HttpRequest.http_proxy_host http_request) then
             ret (PoolItself cur_pool)
           else
             call (connection_from_url w cur_pool (HttpRequest.uri http_request))) ;;
  sleep0 ;;
  sleep0 ;;
  r <- u3_fire conn http_request ;;
  sleep0 ;;
  u3_process r.

(** The implementation [_go_http_internal] settles on once the URL is
    parsed: the forced one, urllib3 when none is forced, and urllib3 in any
    case for a proxy with https. *)
Definition resolve_impl (http_request : HttpRequest.t) (url : URL.t) : option Z :=
  let impl := HttpRequest.force_http_implementation http_request in
  let impl := if decide (impl = HTTP_IMPL_AUTO) then Some HTTP_IMPL_URLLIB3
              else impl in
  if truthy_opt_str (HttpRequest.http_proxy_host http_request)
     && String.eqb (URL.scheme url) PROTO_HTTPS
  then Some HTTP_IMPL_URLLIB3
  else impl.

(** The [try] block of [_go_http_internal]. *)
Definition _go_http_internal_try (http_request : HttpRequest.t) : M unit :=
  url <- call (URL_new w (HttpRequest.uri http_request)) ;;
  sleep0 ;;
  let impl := resolve_impl http_request url in
  if decide (impl = Some HTTP_IMPL_GEVENT) then
    _go_gevent http_request ;;
    sleep0
  else if decide (impl = Some HTTP_IMPL_URLLIB3) then
    _go_urllib3 http_request ;;
    sleep0
  else
    raise InvalidForceHttpImplementation.

(** [HttpClient._go_http_internal(http_request, http_response)] *)
Definition _go_http_internal (http_request : HttpRequest.t) : M unit :=
  try_except_Exception
    (_go_http_internal_try http_request)
    (fun e =>
       modify_response (HttpResponse.set_exception (Some e)) ;;
       raise e).

(** [float(http_request.general_timeout_ms) / 1000.0], as the rational the
    float stands for. *)
Definition general_timeout_sec (http_request : HttpRequest.t) : Q :=
  (inject_Z (HttpRequest.general_timeout_ms http_request) / 1000)%Q.

(** [HttpClient.go_http(http_request)] *)
Definition go_http (http_request : HttpRequest.t) : M HttpResponse.t :=
  modify_response (fun _ => HttpResponse.__init__) ;;
  let general_timeout_sec := general_timeout_sec http_request in
  try_finally
    (try_except_Timeout
       (modify_response (HttpResponse.set_http_request (Some http_request)) ;;
        with_timeout general_timeout_sec (deadline w) (_go_http_internal http_request) ;;
        sleep0)
       (modify_response (HttpResponse.set_exception
          (Some (TimeoutWhileProcessing general_timeout_sec)))))
    (sleep0 ;;
     modify_response (HttpResponse.set_elapsed_ms (Some (msdiff w)))) ;;
  get_response.

End Exec.

(** The machine in which a backend asks for its pool entry: the response
    carries the implementation, nothing else has happened. *)
Definition entered (impl : Z) (m : Machine) : Machine :=
  set_http_response
    (HttpResponse.set_http_implementation (Some impl) (http_response m)) m.

(** What a backend does with a request once, with no deadline armed, it has
    its pool entry ([gevent_ready]) or its connection ([u3_ready]): it sends
    one call, or refuses the request with an exception. *)
Definition gevent_ready (w : World) (r : HttpRequest.t) (m : Machine)
  (url : URL.t) (http : HTTPClient.t) (m1 : Machine) : Prop :=
  timer m = None /\
  URL_new w (HttpRequest.uri r) = Ok url /\
  gevent_from_pool (patched url) r (entered HTTP_IMPL_GEVENT m) = (Return http, m1).

Definition u3_ready (w : World) (r : HttpRequest.t) (m : Machine)
  (conn : U3Conn) (m1 : Machine) : Prop :=
  timer m = None /\
  exists pool,
    urllib3_from_pool r (entered HTTP_IMPL_URLLIB3 m) = (Return pool, m1) /\
    if truthy_opt_str (HttpRequest.http_proxy_host r)
    then conn = PoolItself pool
    else connection_from_url w pool (HttpRequest.uri r) = Ok conn.

Definition gevent_sends (w : World) (r : HttpRequest.t) (verb : GeventVerb)
  (body : BodyArg) : Prop :=
  (forall http url,
     gevent_fire w http url r
     = gevent_call w http verb (URL.request_uri url) body (HttpRequest.headers r)) /\
  (forall m url http m1,
     gevent_ready w r m url http m1 ->
     trace (_go_gevent w r m).2
     = (trace m1 ++ [EvGevent http verb (URL.request_uri (patched url)) body
                              (HttpRequest.headers r)])%list).

Definition gevent_refuses (w : World) (r : HttpRequest.t) (e : PyException) : Prop :=
  (forall http url, gevent_fire w http url r = raise e) /\
  (forall m url http m1,
     gevent_ready w r m url http m1 ->
     _go_gevent w r m = (RaiseException e, m1)).

Definition u3_sends (w : World) (r : HttpRequest.t) (method : string)
  (body : BodyArg) : Prop :=
  (forall conn,
     u3_fire w conn r
     = u3_urlopen w conn method (HttpRequest.uri r) body (HttpRequest.headers r)) /\
  (forall m conn m1,
     u3_ready w r m conn m1 ->
     trace (_go_urllib3 w r m).2
     = (trace m1 ++ [EvUrlopen conn method (HttpRequest.uri r) body
                               (HttpRequest.headers r)])%list).

Definition u3_refuses (w : World) (r : HttpRequest.t) (e : PyException) : Prop :=
  (forall conn, u3_fire w conn r = raise e) /\
  (forall m conn m1,
     u3_ready w r m conn m1 ->
     _go_urllib3 w r m = (RaiseException e, m1)).

(** The machine [go_http] runs [_go_http_internal] in: a new response that
    carries the request, and the deadline of the world armed. *)
Definition armed (w : World) (r : HttpRequest.t) (m : Machine) : Machine :=
  set_timer (deadline w)
    (set_http_response
       (HttpResponse.set_http_request (Some r) HttpResponse.__init__) m).

(** The machine [go_http] leaves, from the one [_go_http_internal] left and
    the response as it is returned: the deadline is cancelled. *)
Definition finished (resp : HttpResponse.t) (m : Machine) : Machine :=
  set_http_response resp (set_timer None m).

(** ** Sequences of calls on one client *)

(** A machine in which a call starts: the client [c], a response slot, the
    deadline [t] of the caller if any, and no event yet. *)
Definition start (c : HttpClient) (t : option nat) : Machine :=
  mkMachine c HttpResponse.__init__ t [].

(** The public operations of the client. *)
Inductive Operation :=
| OpGeventFromPool (url : URL.t) (http_request : HttpRequest.t)
| OpUrllib3FromPool (http_request : HttpRequest.t)
| OpGoHttp (w : World) (http_request : HttpRequest.t).

(** The client object after one operation. *)
Definition after (op : Operation) (t : option nat) (c : HttpClient) : HttpClient :=
  match op with
  | OpGeventFromPool url http_request =>
      self (gevent_from_pool url http_request (start c t)).2
  | OpUrllib3FromPool http_request =>
      self (urllib3_from_pool http_request (start c t)).2
  | OpGoHttp w http_request =>
      self (go_http w http_request (start c t)).2
  end.

(** The client objects a program can hold: a new one, and any one obtained by
    an operation on such an object. *)
Inductive reachable : HttpClient -> Prop :=
| reachable_init : reachable HttpClient__init__
| reachable_after op t c : reachable c -> reachable (after op t c).

(** Both registries are within the capacity set at construction. *)
Definition pools_bounded (c : HttpClient) : Prop :=
  _gevent_pool_max c = 1024%nat /\
  _u3_proxy_pool_max c = 1024%nat /\
  (size (_gevent_pool c) <= 1024)%nat /\
  (size (_u3_proxy_pool c) <= 1024)%nat.

(** ** Relations between the machine before and after a computation *)

(** [c] takes every machine to one related to it by [R], however it ends. *)
Definition preserves {A} (R : relation Machine) (c : M A) : Prop :=
  forall m, R m (c m).2.

(** [c] raises only exceptions satisfying [P]. *)
Definition raises_only {A} (P : PyException -> Prop) (c : M A) : Prop :=
  forall m e, (c m).1 = RaiseException e -> P e.

(** A relation that the deadline and the trace do not bear on. *)
Class Ghost (R : relation Machine) : Prop := {
  ghost_preorder :: PreOrder R;
  ghost_timer : forall m t, R m (set_timer t m);
  ghost_trace : forall m t, R m (set_trace t m)
}.

(** The value [g] reads off the client and the response is the same. *)
Definition same_on {X} (g : HttpClient -> HttpResponse.t -> X) : relation Machine :=
  fun m m' => g (self m') (http_response m') = g (self m) (http_response m).

(** The property [I] of the client object is kept. *)
Definition keeps (I : HttpClient -> Prop) : relation Machine :=
  fun m m' => I (self m) -> I (self m').

(** An exception other than the one [go_http] makes of a [Timeout]. *)
Definition not_timeout_message (e : PyException) : Prop :=
  match e with
  | TimeoutWhileProcessing _ => False
  | _ => True
  end.


(** ** Vocabulary of the further properties *)

(** The entry [gevent_from_pool] builds for a request on a miss. *)
Definition gevent_entry (url : URL.t) (r : HttpRequest.t) : HTTPClient.t :=
  HTTPClient.from_url url
    (HttpRequest.https_insecure r) (HttpRequest.disable_ipv6 r)
    (HttpRequest.connection_timeout_ms r `div` 1000)
    (HttpRequest.network_timeout_ms r `div` 1000)
    (HttpRequest.http_concurrency r)
    (HttpRequest.http_proxy_host r) (HttpRequest.http_proxy_port r) ∅.

(** The entry [urllib3_from_pool] builds for a request on a miss. *)
Definition proxy_entry (r : HttpRequest.t) : ProxyManager :=
  mkProxyManager 1024 1024
    ("http://" ++ py_str_opt id (HttpRequest.http_proxy_host r)
     ++ ":" ++ py_str_opt py_str_int (HttpRequest.http_proxy_port r)).

(** The values the header [k] has in [items], in their order. *)
Definition header_values (k : string) (items : list (string * string)) : list string :=
  (filter (fun kv => kv.1 = k) items).*2.

(** The value of a header that was [old] once the values [vs] have come in:
    one value alone stays a scalar, several make a list, behind what was
    there. *)
Definition merged (old : option HeaderValue) (vs : list string) : option HeaderValue :=
  match vs with
  | [] => old
  | v :: vs' =>
      Some match old with
           | None => match vs' with
                     | [] => Scalar v
                     | _ :: _ => Multi (v :: vs')
                     end
           | Some (Scalar v0) => Multi (v0 :: v :: vs')
           | Some (Multi l) => Multi (l ++ v :: vs')
           end
  end.

(** The client after each of [ops] was run in turn, each under its own
    deadline. *)
Definition after_all (ops : list (Operation * option nat)) (c : HttpClient) :
  HttpClient :=
  foldl (fun c o => after o.1 o.2 c) c ops.

(** The events of a call on a registry that takes its lock: the lock is
    taken first and released last, and what is in between are entries
    being built. *)
Definition locked_section (l : Lock) (events : list Event) : Prop :=
  exists built,
    events = (Acquire l :: built ++ [Release l])%list /\
    Forall (fun e => match e with
                     | EvHTTPClient_from_url _ | EvProxyManager _ => True
                     | _ => False
                     end) built.

(** The calls to a backend among the events: [http.get] and the like of the
    gevent client, [conn.urlopen] of urllib3. *)
Definition call_count (e : Event) : nat :=
  match e with
  | EvGevent _ _ _ _ _ | EvUrlopen _ _ _ _ _ => 1
  | _ => 0
  end.
Definition backend_calls (events : list Event) : nat := sum_list_with call_count events.

(** The events of [m'] are those of [m] and then some, at most [n] calls to
    a backend among them. *)
Definition extends_by (n : nat) (m m' : Machine) : Prop :=
  exists added,
    trace m' = (trace m ++ added)%list /\ (backend_calls added <= n)%nat.

(** The computation [c] calls a backend at most [n] times, however it ends. *)
Definition calls_at_most (n : nat) {A} (c : M A) : Prop :=
  forall m, extends_by n m (c m).2.


(** The deadline [t] leaves room for [n] switches to the hub. *)
Definition covers (n : nat) (t : option nat) : Prop :=
  match t with
  | None => True
  | Some k => (n <= k)%nat
  end.

(** From the deadline [t] to [t'], at most [n] switches have passed. *)
Definition spent (n : nat) (t t' : option nat) : Prop :=
  match t, t' with
  | None, None => True
  | Some k, Some k' => (k' <= k <= k' + n)%nat
  | _, _ => False
  end.

(** The computation [c] switches to the hub at most [n] times: under a
    deadline that leaves room for as many, no [Timeout] is delivered. *)
Definition switches_at_most (n : nat) {A} (c : M A) : Prop :=
  forall m, covers n (timer m) ->
            (c m).1 <> RaiseTimeout /\ spent n (timer m) (timer (c m).2).


(** The response [resp] holds a reply to the request [r], stored over the
    response [before]: the reply came from the gevent client or from
    [urlopen] on the request's URI, and its headers were merged into those
    of [before]. *)
Definition populated (w : World) (r : HttpRequest.t) (before resp : HttpResponse.t) :
  Prop :=
  (exists http verb uri sent reply body,
     gevent_request w http verb uri sent (HttpRequest.headers r) = Ok (Some reply) /\
     GeventResponse.read reply = Ok body /\
     HttpResponse.http_implementation resp = Some HTTP_IMPL_GEVENT /\
     HttpResponse.status_code resp = GeventResponse.status_code reply /\
     HttpResponse.buffer resp = Some body /\
     HttpResponse.headers resp
     = add_headers (GeventResponse._headers_index reply) (HttpResponse.headers before)) \/
  (exists conn method sent reply,
     urlopen w conn method (HttpRequest.uri r) sent (HttpRequest.headers r) = Ok reply /\
     HttpResponse.http_implementation resp = Some HTTP_IMPL_URLLIB3 /\
     HttpResponse.status_code resp = U3Response.status reply /\
     HttpResponse.buffer resp = Some (U3Response.data reply) /\
     HttpResponse.headers resp
     = add_headers (U3Response.headers reply) (HttpResponse.headers before)).

(** ** Sample requests, worlds and clients *)

Module Sample.

(** A request with the defaults of the library and the given target, method,
    body, proxy and forced implementation. *)
Definition request (uri : string) (method post_data : option string)
  (proxy_host : option string) (proxy_port : option Z) (force : option Z) :
  HttpRequest.t :=
  HttpRequest.mk uri method post_data ∅ 10000 10000 30000 8192 false false
                 proxy_host proxy_port force.

Definition url_http : URL.t := URL.mk "example.org" 80 "http" (Some "/ping") "".
Definition url_https : URL.t := URL.mk "example.org" 443 "https" (Some "/ping") "".

(** A parser that knows the two schemes. *)
Definition parse (uri : string) : Try URL.t :=
  if String.prefix "https://" uri then Ok url_https
  else if String.prefix "http://" uri then Ok url_http
  else Err "invalid url".

(** A server answering 200 with the body ["ok"] and one header. *)
Definition gevent_ok : GeventResponse.t :=
  GeventResponse.mk 200 (Some 2%Z) (Ok "ok") [("X-Test", "1")].
Definition u3_ok : U3Response.t :=
  U3Response.mk 200 [("X-Test", "1")] "ok".

(** The answer to a [HEAD]: a length is announced and no body comes. *)
Definition gevent_head : GeventResponse.t :=
  GeventResponse.mk 200 (Some 5%Z) (Ok "") [("Content-Length", "5")].
Definition u3_head : U3Response.t :=
  U3Response.mk 200 [("Content-Length", "5")] "".

(** The world in which every call is answered by the given replies and the
    general timeout expires after [deadline] switches. *)
Definition world (g : GeventResponse.t) (u : U3Response.t) (deadline : option nat) : World :=
  {| URL_new := parse;
     gevent_request := fun _ _ _ _ _ => Ok (Some g);
     connection_from_url := fun pool uri => Ok (ConnectionFromUrl pool uri);
     urlopen := fun _ _ _ _ _ => Ok u;
     deadline := deadline;
     msdiff := 12 |}.

(** Worlds in which the gevent client fails to connect, or hands back a
    false value for a response. *)
Definition refusing : World :=
  {| URL_new := parse;
     gevent_request := fun _ _ _ _ _ => Err "connection refused";
     connection_from_url := fun pool uri => Ok (ConnectionFromUrl pool uri);
     urlopen := fun _ _ _ _ _ => Err "connection refused";
     deadline := None;
     msdiff := 12 |}.

(** In time, and too slow for the body to be read. *)
Definition fast : World := world gevent_ok u3_ok None.
Definition slow : World := world gevent_ok u3_ok (Some 6%nat).
Definition head : World := world gevent_head u3_head None.

(** Requests: through the gevent backend, and through a proxy. *)
Definition get_gevent : HttpRequest.t :=
  request "http://example.org/ping" None None None None (Some HTTP_IMPL_GEVENT).
Definition get_proxy : HttpRequest.t :=
  request "http://example.org/ping" None None (Some "proxy.local") (Some 3128%Z) None.

(** A client that served one request of each kind. *)
Definition used : HttpClient :=
  after (OpGoHttp fast get_gevent) None
    (after (OpGoHttp fast get_proxy) None HttpClient__init__).

(** Requests with a method and a body, through either backend. *)
Definition send (force : Z) (method post_data : option string) : HttpRequest.t :=
  request "http://example.org/ping" method post_data None None (Some force).

(** The pool entry and the connection these requests are served through. *)
Definition entry : HTTPClient.t :=
  HTTPClient.from_url url_http false false 10 10 8192 None None ∅.
Definition connection : U3Conn :=
  ConnectionFromUrl (BasicPool (mkPoolManager 1024 1024)) "http://example.org/ping".

(** A request that forces the gevent backend, through a proxy, to an https
    target. *)
Definition forced_gevent_proxy_https : HttpRequest.t :=
  request "https://example.org/ping" None None (Some "proxy.local") (Some 3128%Z)
          (Some HTTP_IMPL_GEVENT).

(** A client whose two registries hold [n] entries each. *)
Definition filled_gevent_pool (n : nat) : gmap string HTTPClient.t :=
  list_to_map ((fun i : nat =>
    (pretty i, HTTPClient.from_url url_http false false 10 10 8192 None None ∅))
    <$> seq 0 n).
Definition filled_u3_proxy_pool (n : nat) : gmap string ProxyManager :=
  list_to_map ((fun i : nat => (pretty i, mkProxyManager 1024 1024 "http://p:1"))
    <$> seq 0 n).
Definition filled (n : nat) : HttpClient :=
  set_u3_proxy_pool (filled_u3_proxy_pool n)
    (set_gevent_pool (filled_gevent_pool n) HttpClient__init__).

(** Requests that force an implementation that does not exist, without and
    with a proxy to an https target. *)
Definition forced_unknown : HttpRequest.t :=
  request "http://example.org/ping" None None None None (Some 2%Z).
Definition forced_unknown_proxy_https : HttpRequest.t :=
  request "https://example.org/ping" None None (Some "proxy.local") (Some 3128%Z)
          (Some 2%Z).



(** A server that answers 503 and drops the connection while the body is
    read. *)
Definition gevent_reset : GeventResponse.t :=
  GeventResponse.mk 503 None (Err "connection reset") [].
Definition broken : World := world gevent_reset u3_ok None.


(** Deadlines that expire after nine and after ten switches. *)
Definition nine : World := world gevent_ok u3_ok (Some 9%nat).
Definition ten : World := world gevent_ok u3_ok (Some 10%nat).

End Sample.

(** * Properties *)

(** ** The monad *)

Local Open Scope py_scope.

Lemma bind_Return {A B} (c : M A) (k : A -> M B) m a m' :
  c m = (Return a, m') -> bind c k m = k a m'.
Proof. unfold bind. intros ->. reflexivity. Qed.

Lemma bind_RaiseException {A B} (c : M A) (k : A -> M B) m e m' :
  c m = (RaiseException e, m') -> bind c k m = (RaiseException e, m').
Proof. unfold bind. intros ->. reflexivity. Qed.

Lemma bind_RaiseTimeout {A B} (c : M A) (k : A -> M B) m m' :
  c m = (RaiseTimeout, m') -> bind c k m = (RaiseTimeout, m').
Proof. unfold bind. intros ->. reflexivity. Qed.

Lemma sleep0_no_timer m : timer m = None -> sleep0 m = (Return tt, m).
Proof. unfold sleep0. intros ->. reflexivity. Qed.

Lemma bind_modify_response {B} f (k : unit -> M B) m :
  bind (modify_response f) k m = k tt (set_http_response (f (http_response m)) m).
Proof. reflexivity. Qed.

Lemma bind_sleep0_no_timer {B} (k : unit -> M B) m :
  timer m = None -> bind sleep0 k m = k tt m.
Proof. intros Ht. unfold bind. rewrite sleep0_no_timer by exact Ht. reflexivity. Qed.

Lemma bind_ret {A B} (a : A) (k : A -> M B) m : bind (ret a) k m = k a m.
Proof. reflexivity. Qed.

Lemma bind_call_Ok {A B} (a : A) (k : A -> M B) m : bind (call (Ok a)) k m = k a m.
Proof. reflexivity. Qed.

Section Preserves.

Context (R : relation Machine) `{!Ghost R}.

Lemma preserves_ret {A} (a : A) : preserves R (ret a).
Proof. intros m. reflexivity. Qed.

Lemma preserves_raise {A} e : preserves R (@raise A e).
Proof. intros m. reflexivity. Qed.

Lemma preserves_bind {A B} (c : M A) (k : A -> M B) :
  preserves R c -> (forall a, preserves R (k a)) -> preserves R (bind c k).
Proof.
  intros Hc Hk m. unfold bind. specialize (Hc m).
  destruct (c m) as [[a | e |] m1]; simpl in *; auto.
  etrans; [exact Hc | apply Hk].
Qed.

Lemma preserves_get_self : preserves R get_self.
Proof. intros m. reflexivity. Qed.

Lemma preserves_get_response : preserves R get_response.
Proof. intros m. reflexivity. Qed.

Lemma preserves_sleep0 : preserves R sleep0.
Proof.
  intros m. unfold sleep0. destruct (timer m) as [[|n]|]; simpl;
    first [apply ghost_timer | reflexivity].
Qed.

Lemma preserves_emit e : preserves R (emit e).
Proof. intros m. apply ghost_trace. Qed.

Lemma preserves_call {A} (r : Try A) : preserves R (call r).
Proof. destruct r; [apply preserves_ret | apply preserves_raise]. Qed.

Lemma preserves_io {A} (r : Try A) : preserves R (io r).
Proof.
  apply preserves_bind; [apply preserves_sleep0 | intros; apply preserves_call].
Qed.

Lemma preserves_modify_response f :
  (forall m, R m (set_http_response (f (http_response m)) m)) ->
  preserves R (modify_response f).
Proof. intros H m. apply H. Qed.

Lemma preserves_modify_self f :
  (forall m, R m (set_self (f (self m)) m)) ->
  preserves R (modify_self f).
Proof. intros H m. apply H. Qed.

Lemma preserves_with_lock {A} l (body : M A) :
  preserves R body -> preserves R (with_lock l body).
Proof.
  intros H m. unfold with_lock.
  specialize (H (set_trace (trace m ++ [Acquire l]) m)).
  destruct (body _) as [o m1]; simpl in *.
  etrans; [apply (ghost_trace m) |]. etrans; [exact H |]. apply ghost_trace.
Qed.

Lemma preserves_try_except_Exception {A} (body : M A) handler :
  preserves R body -> (forall e, preserves R (handler e)) ->
  preserves R (try_except_Exception body handler).
Proof.
  intros Hb Hh m. unfold try_except_Exception. specialize (Hb m).
  destruct (body m) as [[a | e |] m1]; simpl in *; auto.
  etrans; [exact Hb | apply Hh].
Qed.

Lemma preserves_try_except_Timeout {A} (body handler : M A) :
  preserves R body -> preserves R handler ->
  preserves R (try_except_Timeout body handler).
Proof.
  intros Hb Hh m. unfold try_except_Timeout. specialize (Hb m).
  destruct (body m) as [[a | e |] m1]; simpl in *; auto.
  etrans; [exact Hb | apply Hh].
Qed.

Lemma preserves_try_finally {A} (body : M A) final :
  preserves R body -> preserves R final -> preserves R (try_finally body final).
Proof.
  intros Hb Hf m. unfold try_finally. specialize (Hb m).
  destruct (body m) as [o m1]; simpl in *. specialize (Hf m1).
  destruct (final m1) as [[a | e |] m2]; simpl in *; etrans; eauto.
Qed.

Lemma preserves_with_timeout {A} seconds expiry (f : M A) :
  preserves R f -> preserves R (with_timeout seconds expiry f).
Proof.
  intros H m. unfold with_timeout. specialize (H (set_timer expiry m)).
  destruct (f _) as [o m1]; simpl in *.
  etrans; [apply (ghost_timer m) |]. etrans; [exact H |]. apply ghost_timer.
Qed.

End Preserves.

#[local] Instance same_on_ghost {X} (g : HttpClient -> HttpResponse.t -> X) :
  Ghost (same_on g).
Proof.
  split.
  - split; [intros m; reflexivity | intros a b c Hab Hbc].
    unfold same_on in *. congruence.
  - intros m t. reflexivity.
  - intros m t. reflexivity.
Qed.

#[local] Instance keeps_ghost (I : HttpClient -> Prop) : Ghost (keeps I).
Proof.
  split.
  - split; [intros m H; exact H | intros a b c Hab Hbc H; auto].
  - intros m t H. exact H.
  - intros m t H. exact H.
Qed.

(** Splits a goal [preserves R c] along the structure of [c]; what is left are
    the updates of the client and of the response. *)
Ltac preserves_rule :=
  lazymatch goal with
  | |- preserves _ (bind _ _) => apply preserves_bind
  | |- preserves _ (ret _) => apply preserves_ret
  | |- preserves _ (raise _) => apply preserves_raise
  | |- preserves _ get_self => apply preserves_get_self
  | |- preserves _ get_response => apply preserves_get_response
  | |- preserves _ sleep0 => apply preserves_sleep0
  | |- preserves _ (emit _) => apply preserves_emit
  | |- preserves _ (call _) => apply preserves_call
  | |- preserves _ (io _) => apply preserves_io
  | |- preserves _ (with_lock _ _) => apply preserves_with_lock
  | |- preserves _ (with_timeout _ _ _) => apply preserves_with_timeout
  | |- preserves _ (try_except_Exception _ _) => apply preserves_try_except_Exception
  | |- preserves _ (try_except_Timeout _ _) => apply preserves_try_except_Timeout
  | |- preserves _ (try_finally _ _) => apply preserves_try_finally
  | |- preserves _ (modify_response _) => apply preserves_modify_response
  | |- preserves _ (modify_self _) => apply preserves_modify_self
  | |- preserves _ (if ?b then _ else _) => destruct b
  | |- preserves _ (match ?x with _ => _ end) => destruct x
  end.

Ltac preserves_side :=
  lazymatch goal with
  | |- Ghost _ => typeclasses eauto
  | |- forall _, _ => intros ?
  | |- _ => idtac
  end.

Ltac preserves_tac :=
  cbv zeta; repeat (preserves_rule; preserves_side; cbv zeta).

(** ** What the pool functions leave alone *)

Section PoolFrames.

Context {X} (g : HttpClient -> HttpResponse.t -> X).

Lemma gevent_from_pool_same_on url http_request :
  (forall c r p, g (set_gevent_pool p c) r = g c r) ->
  preserves (same_on g) (gevent_from_pool url http_request).
Proof.
  intros Hg. unfold gevent_from_pool. preserves_tac.
  unfold same_on; simpl. apply Hg.
Qed.

Lemma urllib3_from_pool_same_on http_request :
  (forall c r p, g (set_u3_proxy_pool p c) r = g c r) ->
  preserves (same_on g) (urllib3_from_pool http_request).
Proof.
  intros Hg. unfold urllib3_from_pool. preserves_tac.
  unfold same_on; simpl. apply Hg.
Qed.

End PoolFrames.

(** ** The registries stay within their capacity *)

(** Case analysis on a scrutinee that is not itself a case analysis. *)
Ltac destruct_innermost :=
  match goal with
  | |- context [match ?x with _ => _ end] =>
      lazymatch x with
      | context [match _ with _ => _ end] => fail
      | _ => destruct x eqn:?
      end
  end.

(** Runs the pool functions on a symbolic machine, case by case. *)
Ltac run_pool :=
  unfold gevent_from_pool, urllib3_from_pool, with_lock, bind, get_self, ret,
    raise, emit, modify_self, sleep0;
  cbn [self timer trace http_response set_self set_timer set_trace fst snd];
  repeat (destruct_innermost;
          cbn [self timer trace http_response set_self set_timer set_trace fst snd]).

Lemma insert_within_capacity {V} (pool : gmap string V) key v max :
  pool !! key = None -> (max <=? size pool)%nat = false ->
  (size (<[key := v]> pool) <= max)%nat.
Proof.
  intros Hnone Hroom. rewrite map_size_insert_None by exact Hnone.
  apply Nat.leb_gt in Hroom. lia.
Qed.

Lemma gevent_from_pool_keeps_bounded url http_request :
  preserves (keeps pools_bounded) (gevent_from_pool url http_request).
Proof.
  intros m (Hmax & Hmax' & Hsize & Hsize'). unfold pools_bounded.
  run_pool; auto.
  all: repeat split; simpl; auto.
  all: rewrite <- Hmax; eapply insert_within_capacity; eauto.
Qed.

Lemma urllib3_from_pool_keeps_bounded http_request :
  preserves (keeps pools_bounded) (urllib3_from_pool http_request).
Proof.
  intros m (Hmax & Hmax' & Hsize & Hsize'). unfold pools_bounded.
  run_pool; auto.
  all: repeat split; simpl; auto.
  all: rewrite <- Hmax'; eapply insert_within_capacity; eauto.
Qed.

(** The rules of [preserves_rule], the pool functions included. *)
Ltac preserves_pool_rule :=
  lazymatch goal with
  | |- preserves (keeps pools_bounded) (gevent_from_pool _ _) =>
      apply gevent_from_pool_keeps_bounded
  | |- preserves (keeps pools_bounded) (urllib3_from_pool _) =>
      apply urllib3_from_pool_keeps_bounded
  | |- preserves (same_on _) (gevent_from_pool _ _) =>
      apply gevent_from_pool_same_on; intros; reflexivity
  | |- preserves (same_on _) (urllib3_from_pool _) =>
      apply urllib3_from_pool_same_on; intros; reflexivity
  end.

Ltac preserves_auto :=
  cbv zeta;
  repeat (first [preserves_pool_rule | preserves_rule]; preserves_side; cbv zeta).

Ltac unfold_client :=
  unfold go_http, _go_http_internal, _go_http_internal_try, _go_gevent,
    _go_urllib3, gevent_fire, u3_fire, gevent_call, u3_urlopen, gevent_process,
    u3_process.

Lemma go_http_keeps_bounded w http_request :
  preserves (keeps pools_bounded) (go_http w http_request).
Proof. unfold_client. preserves_auto. all: intros H; exact H. Qed.

Lemma init_bounded : pools_bounded HttpClient__init__.
Proof. unfold pools_bounded; simpl. rewrite !map_size_empty. repeat split; lia. Qed.

Lemma reachable_bounded c : reachable c -> pools_bounded c.
Proof.
  induction 1 as [| op t c Hc IH]; [apply init_bounded |].
  destruct op as [url r | r | w r]; simpl.
  - exact (gevent_from_pool_keeps_bounded url r (start c t) IH).
  - exact (urllib3_from_pool_keeps_bounded r (start c t) IH).
  - exact (go_http_keeps_bounded w r (start c t) IH).
Qed.

Lemma gevent_from_pool_hit url http_request m http :
  _gevent_pool (self m) !! gevent_pool_key url http_request = Some http ->
  gevent_from_pool url http_request m = (sleep0 ;; ret http) m.
Proof.
  intros Hhit. unfold gevent_from_pool; cbv zeta.
  unfold bind at 1, get_self. rewrite Hhit. reflexivity.
Qed.

Lemma urllib3_from_pool_hit http_request m p :
  truthy_opt_str (HttpRequest.http_proxy_host http_request) = true ->
  _u3_proxy_pool (self m) !! u3_proxy_pool_key http_request = Some p ->
  urllib3_from_pool http_request m = (sleep0 ;; ret (ProxyPool p)) m.
Proof.
  intros Hproxy Hhit. unfold urllib3_from_pool; cbv zeta. rewrite Hproxy; simpl.
  unfold bind at 1, get_self. rewrite Hhit. reflexivity.
Qed.

Lemma sleep0_then_ret {A} (a : A) m :
  self ((sleep0 ;; ret a) m).2 = self m /\
  http_response ((sleep0 ;; ret a) m).2 = http_response m /\
  trace ((sleep0 ;; ret a) m).2 = trace m /\
  (timer m <> Some 0%nat -> ((sleep0 ;; ret a) m).1 = Return a).
Proof.
  unfold bind, sleep0, ret. destruct (timer m) as [[|n]|]; simpl; tauto.
Qed.

(** C4: in every client a program can hold, each of the two registries holds
    at most 1024 entries, the capacity set at construction; a lookup of a key
    that is present returns the entry stored under it, without raising and
    leaving the client and the trace as they were; a lookup of a new key in a
    registry whose size is at least its capacity raises the error of a maxed
    pool and inserts nothing. *)
Theorem registries_within_capacity :
  (forall c, reachable c ->
     _gevent_pool_max c = 1024%nat /\ _u3_proxy_pool_max c = 1024%nat /\
     (size (_gevent_pool c) <= 1024)%nat /\ (size (_u3_proxy_pool c) <= 1024)%nat) /\
  (forall url r m http,
     _gevent_pool (self m) !! gevent_pool_key url r = Some http ->
     self (gevent_from_pool url r m).2 = self m /\
     trace (gevent_from_pool url r m).2 = trace m /\
     (timer m <> Some 0%nat -> (gevent_from_pool url r m).1 = Return http)) /\
  (forall r m p,
     truthy_opt_str (HttpRequest.http_proxy_host r) = true ->
     _u3_proxy_pool (self m) !! u3_proxy_pool_key r = Some p ->
     self (urllib3_from_pool r m).2 = self m /\
     trace (urllib3_from_pool r m).2 = trace m /\
     (timer m <> Some 0%nat -> (urllib3_from_pool r m).1 = Return (ProxyPool p))) /\
  (forall url r m,
     _gevent_pool (self m) !! gevent_pool_key url r = None ->
     (_gevent_pool_max (self m) <= size (_gevent_pool (self m)))%nat ->
     (gevent_from_pool url r m).1 =
       RaiseException (GeventPoolMaxed (size (_gevent_pool (self m)))
                                       (_gevent_pool_max (self m))) /\
     self (gevent_from_pool url r m).2 = self m) /\
  (forall r m,
     truthy_opt_str (HttpRequest.http_proxy_host r) = true ->
     _u3_proxy_pool (self m) !! u3_proxy_pool_key r = None ->
     (_u3_proxy_pool_max (self m) <= size (_u3_proxy_pool (self m)))%nat ->
     (urllib3_from_pool r m).1 =
       RaiseException (U3PoolMaxed (size (_u3_proxy_pool (self m)))
                                   (_u3_proxy_pool_max (self m))) /\
     self (urllib3_from_pool r m).2 = self m).
Proof.
  split; [exact reachable_bounded |].
  split; [| split; [| split]].
  - intros url r m http Hhit. rewrite (gevent_from_pool_hit _ _ _ _ Hhit).
    pose proof (sleep0_then_ret http m). tauto.
  - intros r m p Hproxy Hhit. rewrite (urllib3_from_pool_hit _ _ _ Hproxy Hhit).
    pose proof (sleep0_then_ret (ProxyPool p) m). tauto.
  - intros url r m Hnone Hfull. apply Nat.leb_le in Hfull.
    unfold gevent_from_pool, with_lock, bind, get_self, raise; cbv zeta.
    rewrite Hnone; simpl. rewrite Hfull; simpl. split; reflexivity.
  - intros r m Hproxy Hnone Hfull. apply Nat.leb_le in Hfull.
    unfold urllib3_from_pool, with_lock, bind, get_self, raise; cbv zeta.
    rewrite Hproxy; simpl. rewrite Hnone; simpl. rewrite Hfull; simpl.
    split; reflexivity.
Qed.

(** On a client that served two requests, and on one whose registries are
    full. *)
Lemma registries_within_capacity_witness :
  ((size (_gevent_pool Sample.used) <= 1024)%nat /\
   (size (_u3_proxy_pool Sample.used) <= 1024)%nat) /\
  (exists http,
     (gevent_from_pool Sample.url_http Sample.get_gevent (start Sample.used None)).1
     = Return http) /\
  (exists p,
     (urllib3_from_pool Sample.get_proxy (start Sample.used None)).1
     = Return (ProxyPool p)) /\
  (gevent_from_pool Sample.url_http Sample.get_gevent
     (start (Sample.filled 1024) None)).1
  = RaiseException (GeventPoolMaxed 1024 1024) /\
  (urllib3_from_pool Sample.get_proxy (start (Sample.filled 1024) None)).1
  = RaiseException (U3PoolMaxed 1024 1024).
Proof.
  destruct registries_within_capacity as (Hsize & Hhit & Hhit' & Hfull & Hfull').
  refine (conj _ (conj _ (conj _ (conj _ _)))).
  - assert (reachable Sample.used) as Hr by (repeat constructor).
    destruct (Hsize _ Hr) as (_ & _ & H1 & H2). split; assumption.
  - eexists.
    refine (proj2 (proj2 (Hhit Sample.url_http Sample.get_gevent
                               (start Sample.used None) _ _)) _).
    + vm_compute. reflexivity.
    + simpl. discriminate.
  - eexists.
    refine (proj2 (proj2 (Hhit' Sample.get_proxy (start Sample.used None) _ _ _)) _).
    + reflexivity.
    + vm_compute. reflexivity.
    + simpl. discriminate.
  - pose proof (Hfull Sample.url_http Sample.get_gevent
                      (start (Sample.filled 1024) None)) as H.
    destruct H as [H _].
    + vm_compute. reflexivity.
    + apply Nat.leb_le. vm_compute. reflexivity.
    + vm_compute in H. vm_compute. exact H.
  - pose proof (Hfull' Sample.get_proxy (start (Sample.filled 1024) None)) as H.
    destruct H as [H _].
    + reflexivity.
    + vm_compute. reflexivity.
    + apply Nat.leb_le. vm_compute. reflexivity.
    + vm_compute in H. vm_compute. exact H.
Defined.

(** ** Header merging *)

Lemma add_header_fresh d k v :
  d !! k = None -> _add_header d k v = <[k := Scalar v]> d.
Proof. unfold _add_header. intros ->. reflexivity. Qed.

Lemma add_header_scalar d k v0 v :
  d !! k = Some (Scalar v0) -> _add_header d k v = <[k := Multi [v0; v]]> d.
Proof. unfold _add_header. intros ->. reflexivity. Qed.

Lemma add_header_multi d k vs v :
  d !! k = Some (Multi vs) -> _add_header d k v = <[k := Multi (vs ++ [v])]> d.
Proof. unfold _add_header. intros ->. reflexivity. Qed.

Lemma add_header_other d k v k' :
  k <> k' -> _add_header d k v !! k' = d !! k'.
Proof.
  intros Hne. unfold _add_header.
  destruct (d !! k) as [[v0 | vs] |]; apply lookup_insert_ne; exact Hne.
Qed.

(** C5: under a key the mapping does not hold yet, merging one value stores
    it as a scalar; a second merge turns it into the list of both and every
    later merge appends, so that merging [v1], [v2], [v3] gives the list
    [[v1; v2; v3]]; other keys are not touched. *)
Theorem header_merge_law (d : gmap string HeaderValue) (k v1 v2 v3 : string) :
  d !! k = None ->
  _add_header d k v1 !! k = Some (Scalar v1) /\
  _add_header (_add_header d k v1) k v2 !! k = Some (Multi [v1; v2]) /\
  _add_header (_add_header (_add_header d k v1) k v2) k v3 !! k
    = Some (Multi [v1; v2; v3]) /\
  add_headers [(k, v1); (k, v2); (k, v3)] d = <[k := Multi [v1; v2; v3]]> d /\
  (forall d' vs v, d' !! k = Some (Multi vs) ->
     _add_header d' k v !! k = Some (Multi (vs ++ [v]))) /\
  (forall k' v, k <> k' -> _add_header d k v !! k' = d !! k').
Proof.
  intros Hfresh.
  assert (_add_header d k v1 = <[k := Scalar v1]> d) as E1
    by (apply add_header_fresh; exact Hfresh).
  assert (_add_header (_add_header d k v1) k v2 = <[k := Multi [v1; v2]]> d) as E2.
  { rewrite E1. rewrite (add_header_scalar _ k v1) by apply lookup_insert_eq.
    apply insert_insert_eq. }
  assert (_add_header (_add_header (_add_header d k v1) k v2) k v3
          = <[k := Multi [v1; v2; v3]]> d) as E3.
  { rewrite E2. rewrite (add_header_multi _ k [v1; v2]) by apply lookup_insert_eq.
    apply insert_insert_eq. }
  repeat split.
  - rewrite E1. apply lookup_insert_eq.
  - rewrite E2. apply lookup_insert_eq.
  - rewrite E3. apply lookup_insert_eq.
  - exact E3.
  - intros d' vs v Hd'. rewrite (add_header_multi _ _ _ _ Hd'). apply lookup_insert_eq.
  - intros k' v Hne. apply add_header_other. exact Hne.
Qed.

(** Three cookies merged into an empty mapping. *)
Lemma header_merge_law_witness :
  _add_header ∅ "Set-Cookie" "a=1" !! "Set-Cookie" = Some (Scalar "a=1") /\
  add_headers [("Set-Cookie", "a=1"); ("Set-Cookie", "b=2"); ("Set-Cookie", "c=3")] ∅
    !! "Set-Cookie" = Some (Multi ["a=1"; "b=2"; "c=3"]).
Proof.
  destruct (header_merge_law ∅ "Set-Cookie" "a=1" "b=2" "c=3") as (H1 & _ & _ & H4 & _).
  - reflexivity.
  - split; [exact H1 |]. rewrite H4. apply lookup_insert_eq.
Defined.

(** ** The shared basic pool of urllib3 *)

Lemma go_http_same_basic_pool w http_request :
  preserves (same_on (fun c _ => _u3_basic_pool c)) (go_http w http_request).
Proof. unfold_client. preserves_auto. all: reflexivity. Qed.

Lemma reachable_basic_pool c :
  reachable c -> _u3_basic_pool c = _u3_basic_pool HttpClient__init__.
Proof.
  induction 1 as [| op t c Hc IH]; [reflexivity |].
  rewrite <- IH. destruct op as [url r | r | w r]; simpl.
  - apply (gevent_from_pool_same_on (fun c _ => _u3_basic_pool c) url r);
      intros; reflexivity.
  - apply (urllib3_from_pool_same_on (fun c _ => _u3_basic_pool c) r);
      intros; reflexivity.
  - apply (go_http_same_basic_pool w r).
Qed.

(** C9: for a request with no proxy host ([None] or the empty string),
    [urllib3_from_pool] returns the [PoolManager] held in [_u3_basic_pool],
    whatever the target, the timeouts or the concurrency of the request; the
    client (its proxy registry with it) is left as it was and no lock is
    taken; and [_u3_basic_pool] is, in every client a program can hold, the
    object made at construction. *)
Theorem basic_pool_shared :
  (forall r m,
     truthy_opt_str (HttpRequest.http_proxy_host r) = false ->
     self (urllib3_from_pool r m).2 = self m /\
     trace (urllib3_from_pool r m).2 = trace m /\
     (timer m <> Some 0%nat ->
      (urllib3_from_pool r m).1 = Return (BasicPool (_u3_basic_pool (self m))))) /\
  (forall r1 r2 t1 t2 c,
     truthy_opt_str (HttpRequest.http_proxy_host r1) = false ->
     truthy_opt_str (HttpRequest.http_proxy_host r2) = false ->
     t1 <> Some 0%nat -> t2 <> Some 0%nat ->
     (urllib3_from_pool r1 (start c t1)).1 = (urllib3_from_pool r2 (start c t2)).1) /\
  (forall c, reachable c -> _u3_basic_pool c = _u3_basic_pool HttpClient__init__).
Proof.
  assert (forall r m,
     truthy_opt_str (HttpRequest.http_proxy_host r) = false ->
     self (urllib3_from_pool r m).2 = self m /\
     trace (urllib3_from_pool r m).2 = trace m /\
     (timer m <> Some 0%nat ->
      (urllib3_from_pool r m).1 = Return (BasicPool (_u3_basic_pool (self m))))) as H.
  { intros r m Hproxy. unfold urllib3_from_pool. rewrite Hproxy; simpl.
    unfold bind, sleep0, get_self, ret.
    destruct (timer m) as [[|n]|]; simpl; repeat split; congruence. }
  split; [exact H |]. split; [| exact reachable_basic_pool].
  intros r1 r2 t1 t2 c H1 H2 Ht1 Ht2.
  destruct (H r1 (start c t1) H1) as (_ & _ & E1).
  destruct (H r2 (start c t2) H2) as (_ & _ & E2).
  rewrite E1, E2 by assumption. reflexivity.
Qed.

(** Two requests without proxy, to different targets and with different
    timeouts, on a client that has a proxy pool. *)
Lemma basic_pool_shared_witness :
  (urllib3_from_pool (Sample.request "http://a.example/x" None None None None None)
     (start Sample.used None)).1
  = Return (BasicPool (mkPoolManager 1024 1024)) /\
  (urllib3_from_pool
     (HttpRequest.with_timeouts 1 2
        (Sample.request "https://b.example:8443/y" None None (Some "") None None))
     (start Sample.used None)).1
  = Return (BasicPool (mkPoolManager 1024 1024)).
Proof.
  destruct basic_pool_shared as (H & _ & Hinit).
  assert (reachable Sample.used) as Hr by (repeat constructor).
  pose proof (Hinit _ Hr) as E. simpl in E.
  split.
  - destruct (H (Sample.request "http://a.example/x" None None None None None)
                (start Sample.used None)) as (_ & _ & H3); [reflexivity |].
    rewrite H3 by discriminate. simpl. rewrite E. reflexivity.
  - destruct (H (HttpRequest.with_timeouts 1 2
                   (Sample.request "https://b.example:8443/y" None None (Some "") None None))
                (start Sample.used None)) as (_ & _ & H3); [reflexivity |].
    rewrite H3 by discriminate. simpl. rewrite E. reflexivity.
Defined.

(** ** The key of the gevent registry *)

Lemma gevent_from_pool_stored url r m http :
  (gevent_from_pool url r m).1 = Return http ->
  _gevent_pool (self (gevent_from_pool url r m).2) !! gevent_pool_key url r = Some http.
Proof.
  run_pool; simpl; intros E; try discriminate; inversion E; subst; auto.
  all: apply lookup_insert_eq.
Qed.

Lemma gevent_from_pool_built url r m http :
  _gevent_pool (self m) !! gevent_pool_key url r = None ->
  (gevent_from_pool url r m).1 = Return http ->
  http = HTTPClient.from_url url
           (HttpRequest.https_insecure r) (HttpRequest.disable_ipv6 r)
           (HttpRequest.connection_timeout_ms r `div` 1000)
           (HttpRequest.network_timeout_ms r `div` 1000)
           (HttpRequest.http_concurrency r)
           (HttpRequest.http_proxy_host r) (HttpRequest.http_proxy_port r) ∅.
Proof.
  intros Hnone. unfold gevent_from_pool; cbv zeta.
  unfold bind at 1, get_self. rewrite Hnone.
  run_pool; simpl; intros E; try discriminate; inversion E; reflexivity.
Qed.







(** ** From the backend's entry to its call *)

Lemma gevent_from_pool_no_timer url r m :
  timer m = None -> timer (gevent_from_pool url r m).2 = None.
Proof. intros Ht. run_pool; simpl; congruence. Qed.

Lemma urllib3_from_pool_no_timer r m :
  timer m = None -> timer (urllib3_from_pool r m).2 = None.
Proof. intros Ht. run_pool; simpl; congruence. Qed.

(** With no deadline armed, a parsed URL and a pool entry, [_go_gevent] comes
    to fire its call on that entry and to process the reply. *)
Lemma go_gevent_reaches_fire w r m url http m1 :
  timer m = None ->
  URL_new w (HttpRequest.uri r) = Ok url ->
  gevent_from_pool (patched url) r (entered HTTP_IMPL_GEVENT m) = (Return http, m1) ->
  _go_gevent w r m
  = (response <- gevent_fire w http (patched url) r ;; sleep0 ;; gevent_process response) m1.
Proof.
  intros Ht Hurl Hpool.
  pose proof (gevent_from_pool_no_timer (patched url) r (entered HTTP_IMPL_GEVENT m) Ht) as Ht1.
  rewrite Hpool in Ht1; simpl in Ht1.
  unfold _go_gevent. rewrite bind_modify_response. fold (entered HTTP_IMPL_GEVENT m).
  rewrite Hurl, bind_call_Ok. rewrite bind_sleep0_no_timer by exact Ht. cbv zeta.
  rewrite (bind_Return _ _ _ _ _ Hpool).
  rewrite bind_sleep0_no_timer by exact Ht1. reflexivity.
Qed.

(** With no deadline armed, a pool and a connection, [_go_urllib3] comes to
    fire its call on that connection and to process the reply. *)
Lemma go_urllib3_reaches_fire w r m pool conn m1 :
  timer m = None ->
  urllib3_from_pool r (entered HTTP_IMPL_URLLIB3 m) = (Return pool, m1) ->
  (if truthy_opt_str (HttpRequest.http_proxy_host r)
   then conn = PoolItself pool
   else connection_from_url w pool (HttpRequest.uri r) = Ok conn) ->
  _go_urllib3 w r m
  = (reply <- u3_fire w conn r ;; sleep0 ;; u3_process reply) m1.
Proof.
  intros Ht Hpool Hconn.
  pose proof (urllib3_from_pool_no_timer r (entered HTTP_IMPL_URLLIB3 m) Ht) as Ht1.
  rewrite Hpool in Ht1; simpl in Ht1.
  unfold _go_urllib3. rewrite bind_modify_response. fold (entered HTTP_IMPL_URLLIB3 m).
  rewrite (bind_Return _ _ _ _ _ Hpool).
  rewrite bind_sleep0_no_timer by exact Ht1.
  destruct (truthy_opt_str (HttpRequest.http_proxy_host r)).
  - subst conn. rewrite bind_ret.
    rewrite !bind_sleep0_no_timer by exact Ht1. reflexivity.
  - rewrite Hconn, bind_call_Ok.
    rewrite !bind_sleep0_no_timer by exact Ht1. reflexivity.
Qed.

(** ** Method dispatch *)

(** Runs the straight-line code after a backend call, case by case. *)
Ltac run_process :=
  unfold gevent_call, u3_urlopen, gevent_process, u3_process, io, call, bind,
    emit, modify_response, sleep0, ret, raise;
  cbn [self timer trace http_response set_self set_timer set_trace
       set_http_response fst snd];
  repeat (destruct_innermost;
          cbn [self timer trace http_response set_self set_timer set_trace
               set_http_response fst snd]).

Lemma gevent_call_then_process_trace w http verb uri body headers m :
  trace ((response <- gevent_call w http verb uri body headers ;;
          sleep0 ;; gevent_process response) m).2
  = (trace m ++ [EvGevent http verb uri body headers])%list.
Proof. run_process; reflexivity. Qed.

Lemma u3_urlopen_then_process_trace w conn method url body headers m :
  trace ((reply <- u3_urlopen w conn method url body headers ;;
          sleep0 ;; u3_process reply) m).2
  = (trace m ++ [EvUrlopen conn method url body headers])%list.
Proof. run_process; reflexivity. Qed.

Lemma gevent_sends_intro w r verb body :
  (forall http url,
     gevent_fire w http url r
     = gevent_call w http verb (URL.request_uri url) body (HttpRequest.headers r)) ->
  gevent_sends w r verb body.
Proof.
  intros Hfire. split; [exact Hfire |].
  intros m url http m1 (Ht & Hurl & Hpool).
  rewrite (go_gevent_reaches_fire w r m url http m1 Ht Hurl Hpool).
  rewrite Hfire. apply gevent_call_then_process_trace.
Qed.

Lemma gevent_refuses_intro w r e :
  (forall http url, gevent_fire w http url r = raise e) ->
  gevent_refuses w r e.
Proof.
  intros Hfire. split; [exact Hfire |].
  intros m url http m1 (Ht & Hurl & Hpool).
  rewrite (go_gevent_reaches_fire w r m url http m1 Ht Hurl Hpool).
  rewrite Hfire. reflexivity.
Qed.

Lemma u3_sends_intro w r method body :
  (forall conn,
     u3_fire w conn r
     = u3_urlopen w conn method (HttpRequest.uri r) body (HttpRequest.headers r)) ->
  u3_sends w r method body.
Proof.
  intros Hfire. split; [exact Hfire |].
  intros m conn m1 (Ht & pool & Hpool & Hconn).
  rewrite (go_urllib3_reaches_fire w r m pool conn m1 Ht Hpool Hconn).
  rewrite Hfire. apply u3_urlopen_then_process_trace.
Qed.

Lemma u3_refuses_intro w r e :
  (forall conn, u3_fire w conn r = raise e) -> u3_refuses w r e.
Proof.
  intros Hfire. split; [exact Hfire |].
  intros m conn m1 (Ht & pool & Hpool & Hconn).
  rewrite (go_urllib3_reaches_fire w r m pool conn m1 Ht Hpool Hconn).
  rewrite Hfire. reflexivity.
Qed.

(** C6: a request with no method ([None] or the empty string) is sent by
    either backend as a POST carrying the body when the body is not empty, and
    as a GET without body when the body is empty or [None]. *)
Theorem auto_method_detection w r :
  truthy_opt_str (HttpRequest.method r) = false ->
  (truthy_opt_str (HttpRequest.post_data r) = true ->
   gevent_sends w r http_post (Body (HttpRequest.post_data r)) /\
   u3_sends w r "POST" (Body (HttpRequest.post_data r))) /\
  (truthy_opt_str (HttpRequest.post_data r) = false ->
   gevent_sends w r http_get NoBody /\
   u3_sends w r "GET" NoBody).
Proof.
  intros Hauto. split; intros Hbody; split.
  - apply gevent_sends_intro. intros http url.
    unfold gevent_fire; cbv zeta. rewrite Hauto, Hbody. reflexivity.
  - apply u3_sends_intro. intros conn.
    unfold u3_fire; cbv zeta. rewrite Hauto, Hbody. reflexivity.
  - apply gevent_sends_intro. intros http url.
    unfold gevent_fire; cbv zeta. rewrite Hauto, Hbody. reflexivity.
  - apply u3_sends_intro. intros conn.
    unfold u3_fire; cbv zeta. rewrite Hauto, Hbody. reflexivity.
Qed.

(** A body and no method through gevent; an empty method and no body through
    urllib3. *)
Lemma auto_method_detection_witness :
  last (trace (_go_gevent Sample.fast
                 (Sample.send HTTP_IMPL_GEVENT None (Some "data"))
                 (start HttpClient__init__ None)).2)
  = Some (EvGevent Sample.entry http_post "/ping" (Body (Some "data")) ∅) /\
  last (trace (_go_urllib3 Sample.fast
                 (Sample.send HTTP_IMPL_URLLIB3 (Some "") None)
                 (start HttpClient__init__ None)).2)
  = Some (EvUrlopen Sample.connection "GET" "http://example.org/ping" NoBody ∅).
Proof.
  split.
  - destruct (auto_method_detection Sample.fast
                (Sample.send HTTP_IMPL_GEVENT None (Some "data")) eq_refl)
      as [Hpost _].
    destruct (Hpost eq_refl) as [[_ Hgevent] _].
    erewrite (Hgevent (start HttpClient__init__ None) Sample.url_http Sample.entry).
    + apply last_snoc.
    + split; [reflexivity | split; [reflexivity | vm_compute; reflexivity]].
  - destruct (auto_method_detection Sample.fast
                (Sample.send HTTP_IMPL_URLLIB3 (Some "") None) eq_refl)
      as [_ Hget].
    destruct (Hget eq_refl) as [_ [_ Hu3]].
    erewrite (Hu3 (start HttpClient__init__ None) Sample.connection).
    + apply last_snoc.
    + split; [reflexivity |]. eexists. split; [vm_compute; reflexivity | reflexivity].
Defined.

Lemma string_eqb_false (a b : string) : a <> b -> String.eqb a b = false.
Proof. apply String.eqb_neq. Qed.

(** C7: with a method given, the gevent backend sends GET and HEAD without
    body and DELETE, PUT and POST with the body, refuses PATCH, OPTIONS and
    TRACE as unsupported and any other method as invalid; the urllib3 backend
    sends GET, HEAD, OPTIONS and TRACE without body and POST, PUT, PATCH and
    DELETE with the body, and refuses any other method as invalid. *)
Theorem method_tables w r method :
  HttpRequest.method r = Some method ->
  let body := Body (HttpRequest.post_data r) in
  ((method = "GET" -> gevent_sends w r http_get NoBody) /\
   (method = "HEAD" -> gevent_sends w r http_head NoBody) /\
   (method = "PUT" -> gevent_sends w r http_put body) /\
   (method = "POST" -> gevent_sends w r http_post body) /\
   (method = "DELETE" -> gevent_sends w r http_delete body) /\
   (method ∈ ["PATCH"; "OPTIONS"; "TRACE"] ->
    gevent_refuses w r (UnsupportedGeventMethod method)) /\
   (method <> "" ->
    method ∉ ["GET"; "HEAD"; "PUT"; "POST"; "DELETE"; "PATCH"; "OPTIONS"; "TRACE"] ->
    gevent_refuses w r (InvalidGeventMethod method))) /\
  ((method ∈ ["GET"; "HEAD"; "OPTIONS"; "TRACE"] -> u3_sends w r method NoBody) /\
   (method ∈ ["POST"; "PUT"; "PATCH"; "DELETE"] -> u3_sends w r method body) /\
   (method <> "" ->
    method ∉ ["GET"; "HEAD"; "OPTIONS"; "TRACE"; "POST"; "PUT"; "PATCH"; "DELETE"] ->
    u3_refuses w r (InvalidUrllib3Method method))).
Proof.
  intros Hmethod body. split.
  - refine (conj _ (conj _ (conj _ (conj _ (conj _ (conj _ _)))))).
    1-5: intros ->; apply gevent_sends_intro; intros http url;
         unfold gevent_fire; rewrite Hmethod; reflexivity.
    + intros Hin. apply gevent_refuses_intro. intros http url.
      unfold gevent_fire; rewrite Hmethod.
      set_unfold in Hin. destruct Hin as [-> | [-> | [-> | []]]]; reflexivity.
    + intros Hne Hout. apply gevent_refuses_intro. intros http url.
      assert (truthy_str method = true) as Htrue
        by (destruct method; [congruence | reflexivity]).
      unfold gevent_fire; rewrite Hmethod. unfold truthy_opt_str at 1.
      rewrite Htrue. cbn [negb default from_option id].
      set_unfold in Hout.
      rewrite !string_eqb_false by (intros E; apply Hout; rewrite E; tauto).
      reflexivity.
  - refine (conj _ (conj _ _)).
    + intros Hin. apply u3_sends_intro. intros conn.
      unfold u3_fire; rewrite Hmethod.
      set_unfold in Hin. destruct Hin as [-> | [-> | [-> | [-> | []]]]]; reflexivity.
    + intros Hin. apply u3_sends_intro. intros conn.
      unfold u3_fire; rewrite Hmethod.
      set_unfold in Hin. destruct Hin as [-> | [-> | [-> | [-> | []]]]]; reflexivity.
    + intros Hne Hout. apply u3_refuses_intro. intros conn.
      assert (truthy_str method = true) as Htrue
        by (destruct method; [congruence | reflexivity]).
      unfold u3_fire; rewrite Hmethod. unfold truthy_opt_str at 1.
      rewrite Htrue. cbn [negb default from_option id].
      unfold py_in, u3_no_body_methods, u3_body_methods. cbn [existsb].
      set_unfold in Hout.
      rewrite !string_eqb_false by (intros E; apply Hout; rewrite E; tauto).
      reflexivity.
Qed.

(** PATCH, DELETE and an unknown method through the two backends. *)
Lemma method_tables_witness :
  (_go_gevent Sample.fast (Sample.send HTTP_IMPL_GEVENT (Some "PATCH") (Some "x"))
     (start HttpClient__init__ None)).1
  = RaiseException (UnsupportedGeventMethod "PATCH") /\
  last (trace (_go_urllib3 Sample.fast
                 (Sample.send HTTP_IMPL_URLLIB3 (Some "PATCH") (Some "x"))
                 (start HttpClient__init__ None)).2)
  = Some (EvUrlopen Sample.connection "PATCH" "http://example.org/ping"
                    (Body (Some "x")) ∅) /\
  last (trace (_go_gevent Sample.fast
                 (Sample.send HTTP_IMPL_GEVENT (Some "DELETE") None)
                 (start HttpClient__init__ None)).2)
  = Some (EvGevent Sample.entry http_delete "/ping" (Body None) ∅) /\
  (_go_gevent Sample.fast (Sample.send HTTP_IMPL_GEVENT (Some "BREW") None)
     (start HttpClient__init__ None)).1
  = RaiseException (InvalidGeventMethod "BREW") /\
  (_go_urllib3 Sample.fast (Sample.send HTTP_IMPL_URLLIB3 (Some "BREW") None)
     (start HttpClient__init__ None)).1
  = RaiseException (InvalidUrllib3Method "BREW").
Proof.
  assert (forall r, HttpRequest.uri r = "http://example.org/ping" ->
            HttpRequest.http_proxy_host r = None ->
            exists m1, gevent_ready Sample.fast r (start HttpClient__init__ None)
                                    Sample.url_http
                                    (HTTPClient.from_url Sample.url_http
                                       (HttpRequest.https_insecure r)
                                       (HttpRequest.disable_ipv6 r)
                                       (HttpRequest.connection_timeout_ms r `div` 1000)
                                       (HttpRequest.network_timeout_ms r `div` 1000)
                                       (HttpRequest.http_concurrency r)
                                       None (HttpRequest.http_proxy_port r) ∅) m1)
    as Hgevent.
  { intros r Huri Hproxy. eexists. unfold gevent_ready. rewrite Huri.
    split; [reflexivity | split; [reflexivity |]].
    unfold gevent_from_pool; cbv zeta. rewrite Hproxy. reflexivity. }
  assert (forall r, HttpRequest.uri r = "http://example.org/ping" ->
            HttpRequest.http_proxy_host r = None ->
            exists m1, u3_ready Sample.fast r (start HttpClient__init__ None)
                                Sample.connection m1) as Hu3.
  { intros r Huri Hproxy. eexists. unfold u3_ready. split; [reflexivity |].
    eexists. unfold urllib3_from_pool. rewrite Hproxy, Huri.
    split; reflexivity. }
  refine (conj _ (conj _ (conj _ (conj _ _)))).
  - destruct (method_tables Sample.fast
                (Sample.send HTTP_IMPL_GEVENT (Some "PATCH") (Some "x")) "PATCH" eq_refl)
      as [(_ & _ & _ & _ & _ & Hunsupported & _) _].
    destruct Hunsupported as [_ Hrun]; [set_solver |].
    destruct (Hgevent (Sample.send HTTP_IMPL_GEVENT (Some "PATCH") (Some "x"))
                eq_refl eq_refl) as [m1 Hready].
    rewrite (Hrun _ _ _ _ Hready). reflexivity.
  - destruct (method_tables Sample.fast
                (Sample.send HTTP_IMPL_URLLIB3 (Some "PATCH") (Some "x")) "PATCH" eq_refl)
      as [_ (_ & Hbody & _)].
    destruct Hbody as [_ Hrun]; [set_solver |].
    destruct (Hu3 (Sample.send HTTP_IMPL_URLLIB3 (Some "PATCH") (Some "x"))
                eq_refl eq_refl) as [m1 Hready].
    rewrite (Hrun _ _ _ Hready). apply last_snoc.
  - destruct (method_tables Sample.fast
                (Sample.send HTTP_IMPL_GEVENT (Some "DELETE") None) "DELETE" eq_refl)
      as [(_ & _ & _ & _ & Hdelete & _) _].
    destruct (Hdelete eq_refl) as [_ Hrun].
    destruct (Hgevent (Sample.send HTTP_IMPL_GEVENT (Some "DELETE") None)
                eq_refl eq_refl) as [m1 Hready].
    rewrite (Hrun _ _ _ _ Hready). apply last_snoc.
  - destruct (method_tables Sample.fast
                (Sample.send HTTP_IMPL_GEVENT (Some "BREW") None) "BREW" eq_refl)
      as [(_ & _ & _ & _ & _ & _ & Hinvalid) _].
    destruct Hinvalid as [_ Hrun]; [discriminate | set_unfold; intuition discriminate |].
    destruct (Hgevent (Sample.send HTTP_IMPL_GEVENT (Some "BREW") None)
                eq_refl eq_refl) as [m1 Hready].
    rewrite (Hrun _ _ _ _ Hready). reflexivity.
  - destruct (method_tables Sample.fast
                (Sample.send HTTP_IMPL_URLLIB3 (Some "BREW") None) "BREW" eq_refl)
      as [_ (_ & _ & Hinvalid)].
    destruct Hinvalid as [_ Hrun]; [discriminate | set_unfold; intuition discriminate |].
    destruct (Hu3 (Sample.send HTTP_IMPL_URLLIB3 (Some "BREW") None)
                eq_refl eq_refl) as [m1 Hready].
    rewrite (Hrun _ _ _ Hready). reflexivity.
Defined.

(** ** [go_http] by the way [_go_http_internal] ends *)

Lemma go_http_unfold w r m :
  go_http w r m =
  let elapsed := HttpResponse.set_elapsed_ms (Some (msdiff w)) in
  match _go_http_internal w r (armed w r m) with
  | (Return _, m1) =>
      let resp := elapsed (http_response m1) in
      (Return resp, finished resp m1)
  | (RaiseException e, m1) =>
      (RaiseException e, finished (elapsed (http_response m1)) m1)
  | (RaiseTimeout, m1) =>
      let resp :=
        elapsed (HttpResponse.set_exception
                   (Some (TimeoutWhileProcessing (general_timeout_sec r)))
                   (http_response m1)) in
      (Return resp, finished resp m1)
  end.
Proof.
  unfold go_http, try_finally, try_except_Timeout, with_timeout, finished,
    bind, modify_response, get_response; cbv zeta.
  repeat match goal with
         | |- context [_go_http_internal w r ?m0] =>
             lazymatch m0 with
             | armed w r m => fail
             | _ => change m0 with (armed w r m)
             end
         end.
  destruct (_go_http_internal w r (armed w r m)) as [[[] | e |] m1]; reflexivity.
Qed.

Lemma go_http_internal_unfold w r m :
  _go_http_internal w r m =
  match _go_http_internal_try w r m with
  | (RaiseException e, m1) =>
      (RaiseException e,
       set_http_response (HttpResponse.set_exception (Some e) (http_response m1)) m1)
  | other => other
  end.
Proof.
  unfold _go_http_internal, try_except_Exception.
  destruct (_go_http_internal_try w r m) as [[[] | e |] m1]; reflexivity.
Qed.

Lemma go_http_internal_try_same_exception w r :
  preserves (same_on (fun _ resp => HttpResponse.exception resp))
            (_go_http_internal_try w r).
Proof. unfold_client. preserves_auto. all: reflexivity. Qed.

(** ** Exceptions raised below [go_http] *)

Section RaisesOnly.

Context (P : PyException -> Prop).

Lemma raises_only_ret {A} (a : A) : raises_only P (ret a).
Proof. intros m e H. discriminate. Qed.

Lemma raises_only_raise {A} e : P e -> raises_only P (@raise A e).
Proof. intros He m e' H. inversion H; subst. exact He. Qed.

Lemma raises_only_bind {A B} (c : M A) (k : A -> M B) :
  raises_only P c -> (forall a, raises_only P (k a)) -> raises_only P (bind c k).
Proof.
  intros Hc Hk m e. unfold bind. specialize (Hc m).
  destruct (c m) as [[a | e' |] m1]; simpl in *.
  - apply Hk.
  - intros H; inversion H; subst. apply Hc. reflexivity.
  - discriminate.
Qed.

Lemma raises_only_quiet {A} (c : M A) :
  (forall m, match (c m).1 with RaiseException _ => False | _ => True end) ->
  raises_only P c.
Proof. intros H m e He. specialize (H m). rewrite He in H. destruct H. Qed.

Lemma raises_only_sleep0 : raises_only P sleep0.
Proof.
  apply raises_only_quiet. intros m. unfold sleep0.
  destruct (timer m) as [[|n]|]; exact I.
Qed.

Lemma raises_only_get_self : raises_only P get_self.
Proof. apply raises_only_quiet. intros m. exact I. Qed.

Lemma raises_only_modify_response f : raises_only P (modify_response f).
Proof. apply raises_only_quiet. intros m. exact I. Qed.

Lemma raises_only_modify_self f : raises_only P (modify_self f).
Proof. apply raises_only_quiet. intros m. exact I. Qed.

Lemma raises_only_emit e : raises_only P (emit e).
Proof. apply raises_only_quiet. intros m. exact I. Qed.

Lemma raises_only_call {A} (r : Try A) :
  (forall what, P (CollaboratorError what)) -> raises_only P (call r).
Proof.
  intros HP. destruct r; [apply raises_only_ret | apply raises_only_raise, HP].
Qed.

Lemma raises_only_io {A} (r : Try A) :
  (forall what, P (CollaboratorError what)) -> raises_only P (io r).
Proof.
  intros HP. apply raises_only_bind;
    [apply raises_only_sleep0 | intros; apply raises_only_call, HP].
Qed.

Lemma raises_only_with_lock {A} l (body : M A) :
  raises_only P body -> raises_only P (with_lock l body).
Proof.
  intros H m e. unfold with_lock.
  specialize (H (set_trace (trace m ++ [Acquire l]) m) e).
  destruct (body _) as [o m1]; simpl in *. exact H.
Qed.

End RaisesOnly.

Ltac raises_rule :=
  lazymatch goal with
  | |- raises_only _ (bind _ _) => apply raises_only_bind; [| intros ?]
  | |- raises_only _ (ret _) => apply raises_only_ret
  | |- raises_only _ (raise _) => apply raises_only_raise; exact I
  | |- raises_only _ get_self => apply raises_only_get_self
  | |- raises_only _ sleep0 => apply raises_only_sleep0
  | |- raises_only _ (emit _) => apply raises_only_emit
  | |- raises_only _ (call _) => apply raises_only_call; intros ?; exact I
  | |- raises_only _ (io _) => apply raises_only_io; intros ?; exact I
  | |- raises_only _ (with_lock _ _) => apply raises_only_with_lock
  | |- raises_only _ (modify_response _) => apply raises_only_modify_response
  | |- raises_only _ (modify_self _) => apply raises_only_modify_self
  | |- raises_only _ (if ?b then _ else _) => destruct b
  | |- raises_only _ (match ?x with _ => _ end) => destruct x
  end.

Ltac raises_auto := cbv zeta; repeat (raises_rule; cbv zeta).

Lemma go_http_internal_try_raises w r :
  raises_only not_timeout_message (_go_http_internal_try w r).
Proof.
  unfold_client. unfold gevent_from_pool, urllib3_from_pool. raises_auto.
Qed.

(** ** What [go_http] returns and what it raises *)



(** ** Backend selection *)

Lemma after_modify_response {A} (R : relation Machine) f (c : M A) m :
  preserves R c ->
  R (set_http_response (f (http_response m)) m) ((modify_response f ;; c) m).2.
Proof. intros H. rewrite bind_modify_response. apply H. Qed.

Lemma go_gevent_implementation w r m :
  HttpResponse.http_implementation (http_response (_go_gevent w r m).2)
  = Some HTTP_IMPL_GEVENT.
Proof.
  unfold _go_gevent.
  refine (after_modify_response
            (same_on (fun _ resp => HttpResponse.http_implementation resp)) _ _ m _).
  unfold gevent_fire, gevent_call, gevent_process. preserves_auto. all: reflexivity.
Qed.

Lemma go_urllib3_implementation w r m :
  HttpResponse.http_implementation (http_response (_go_urllib3 w r m).2)
  = Some HTTP_IMPL_URLLIB3.
Proof.
  unfold _go_urllib3.
  refine (after_modify_response
            (same_on (fun _ resp => HttpResponse.http_implementation resp)) _ _ m _).
  unfold u3_fire, u3_urlopen, u3_process. preserves_auto. all: reflexivity.
Qed.

Lemma then_sleep0_response {A} (c : M A) m :
  http_response ((c ;; sleep0) m).2 = http_response (c m).2.
Proof.
  unfold bind. destruct (c m) as [[a | e |] m1]; simpl; try reflexivity.
  unfold sleep0. destruct (timer m1) as [[|n]|]; reflexivity.
Qed.

(** What [_go_http_internal] runs for a forced implementation. *)
Lemma go_http_internal_implementation w r m url impl :
  URL_new w (HttpRequest.uri r) = Ok url ->
  timer m <> Some 0%nat ->
  resolve_impl r url = Some impl ->
  impl = HTTP_IMPL_GEVENT \/ impl = HTTP_IMPL_URLLIB3 ->
  HttpResponse.http_implementation (http_response (_go_http_internal w r m).2)
  = Some impl.
Proof.
  intros Hurl Ht Himpl Hwhich. rewrite go_http_internal_unfold.
  assert (HttpResponse.http_implementation
            (http_response (_go_http_internal_try w r m).2) = Some impl) as H.
  { unfold _go_http_internal_try. rewrite Hurl, bind_call_Ok.
    unfold bind at 1. unfold sleep0 at 1.
    destruct (timer m) as [[|n]|]; [congruence | |]; cbv zeta; rewrite Himpl.
    all: destruct Hwhich as [-> | ->].
    all: repeat case_decide; try congruence; try discriminate.
    all: rewrite then_sleep0_response.
    all: first [apply go_gevent_implementation | apply go_urllib3_implementation]. }
  destruct (_go_http_internal_try w r m) as [[[] | e |] m1]; exact H.
Qed.

(** C2, as the code has it: a forced implementation (gevent or urllib3) is the
    one used, unless the request has a proxy host and an https target, in which
    case urllib3 is used whatever was forced; [http_implementation] of the
    response tells which backend ran. *)
Theorem forced_backend_resolution r url forced :
  HttpRequest.force_http_implementation r = Some forced ->
  forced = HTTP_IMPL_GEVENT \/ forced = HTTP_IMPL_URLLIB3 ->
  let overridden :=
    truthy_opt_str (HttpRequest.http_proxy_host r)
    && String.eqb (URL.scheme url) PROTO_HTTPS in
  let used := if overridden then HTTP_IMPL_URLLIB3 else forced in
  resolve_impl r url = Some used /\
  (forall w m,
     URL_new w (HttpRequest.uri r) = Ok url ->
     timer m <> Some 0%nat ->
     HttpResponse.http_implementation (http_response (_go_http_internal w r m).2)
     = Some used).
Proof.
  intros Hforce Hwhich overridden used.
  assert (resolve_impl r url = Some used) as Hresolve.
  { unfold resolve_impl, used, overridden, HTTP_IMPL_AUTO. rewrite Hforce.
    case_decide; [discriminate |]. destruct (_ && _); reflexivity. }
  split; [exact Hresolve |].
  intros w m Hurl Ht.
  apply (go_http_internal_implementation w r m url used Hurl Ht Hresolve).
  unfold used. destruct overridden; [right; reflexivity | exact Hwhich].
Qed.

(** Forced gevent with and without a proxy to an https target. *)
Lemma forced_backend_resolution_witness :
  HttpResponse.http_implementation
    (http_response (_go_http_internal Sample.fast Sample.forced_gevent_proxy_https
                      (start HttpClient__init__ None)).2)
  = Some HTTP_IMPL_URLLIB3 /\
  HttpResponse.http_implementation
    (http_response (_go_http_internal Sample.fast Sample.get_gevent
                      (start HttpClient__init__ None)).2)
  = Some HTTP_IMPL_GEVENT.
Proof.
  split.
  - refine (proj2 (forced_backend_resolution Sample.forced_gevent_proxy_https
                     Sample.url_https HTTP_IMPL_GEVENT _ _) Sample.fast _ _ _).
    + reflexivity.
    + left; reflexivity.
    + reflexivity.
    + discriminate.
  - refine (proj2 (forced_backend_resolution Sample.get_gevent
                     Sample.url_http HTTP_IMPL_GEVENT _ _) Sample.fast _ _ _).
    + reflexivity.
    + left; reflexivity.
    + reflexivity.
    + discriminate.
Defined.

(** C2, as stated, fails: the request forces gevent, and with its proxy and
    https target it is urllib3 that serves it. *)
Lemma forced_gevent_overridden :
  HttpRequest.force_http_implementation Sample.forced_gevent_proxy_https
  = Some HTTP_IMPL_GEVENT /\
  exists resp,
    (go_http Sample.fast Sample.forced_gevent_proxy_https
       (start HttpClient__init__ None)).1 = Return resp /\
    HttpResponse.http_implementation resp = Some HTTP_IMPL_URLLIB3 /\
    HttpResponse.http_implementation resp <> Some HTTP_IMPL_GEVENT /\
    HttpResponse.exception resp = None.
Proof.
  split; [reflexivity |]. eexists. split; [vm_compute; reflexivity |].
  repeat split. discriminate.
Qed.

(** ** The deadline *)

(** Runs a call on a symbolic machine, case by case. *)
Ltac run_all :=
  unfold_client;
  unfold gevent_from_pool, urllib3_from_pool, with_lock, try_except_Exception,
    io, call, bind, get_self, ret, raise, emit, modify_self, modify_response, sleep0;
  cbn [self timer trace http_response set_self set_timer set_trace
       set_http_response fst snd];
  repeat (destruct_innermost;
          cbn [self timer trace http_response set_self set_timer set_trace
               set_http_response fst snd]).

(** A deadline that expires within the first six switches to the hub finds the
    status code and the buffer as they were: the gevent backend stores the
    status code after six switches (the last of which is its call), the
    urllib3 backend after seven. *)
Lemma early_timeout_untouched w r m n :
  (n < 6)%nat ->
  (_go_http_internal w r (set_timer (Some n) m)).1 = RaiseTimeout ->
  HttpResponse.status_code (http_response (_go_http_internal w r (set_timer (Some n) m)).2)
  = HttpResponse.status_code (http_response m) /\
  HttpResponse.buffer (http_response (_go_http_internal w r (set_timer (Some n) m)).2)
  = HttpResponse.buffer (http_response m).
Proof.
  intros Hn.
  destruct n as [|[|[|[|[|[|n]]]]]]; [| | | | | | lia].
  all: run_all.
  all: try (simpl; intros; split; reflexivity).
  all: try (simpl; intros; discriminate).
Qed.

Lemma go_http_internal_raises w r :
  raises_only not_timeout_message (_go_http_internal w r).
Proof.
  intros m e. rewrite go_http_internal_unfold.
  pose proof (go_http_internal_try_raises w r m) as H.
  destruct (_go_http_internal_try w r m) as [[[] | e0 |] m1]; simpl in *;
    try discriminate.
  intros E; inversion E; subst. apply H. reflexivity.
Qed.

(** C3, as the code has it: when the deadline expires during the call,
    [go_http] returns a response whose exception is the timeout error carrying
    [general_timeout_sec] and whose elapsed time is stored; the status code
    and the buffer are what the backend had stored by then, the zero values
    when the deadline expires within the first six switches to the hub (no
    reply has been processed yet); when the call is over before the deadline,
    the exception of the response is not the timeout error. *)
Theorem deadline_outcome w r m :
  ((_go_http_internal w r (armed w r m)).1 = RaiseTimeout ->
   exists resp,
     (go_http w r m).1 = Return resp /\
     HttpResponse.exception resp
     = Some (TimeoutWhileProcessing (general_timeout_sec r)) /\
     HttpResponse.elapsed_ms resp = Some (msdiff w) /\
     HttpResponse.status_code resp
     = HttpResponse.status_code
         (http_response (_go_http_internal w r (armed w r m)).2) /\
     HttpResponse.buffer resp
     = HttpResponse.buffer (http_response (_go_http_internal w r (armed w r m)).2) /\
     (forall n, deadline w = Some n -> (n < 6)%nat ->
        HttpResponse.status_code resp = 0%Z /\ HttpResponse.buffer resp = None)) /\
  ((_go_http_internal w r (armed w r m)).1 <> RaiseTimeout ->
   forall q,
     HttpResponse.exception (http_response (go_http w r m).2)
     <> Some (TimeoutWhileProcessing q)).
Proof.
  split.
  - intros Htimeout. rewrite go_http_unfold; cbv zeta.
    assert (forall n, deadline w = Some n -> (n < 6)%nat ->
              HttpResponse.status_code
                (http_response (_go_http_internal w r (armed w r m)).2) = 0%Z /\
              HttpResponse.buffer
                (http_response (_go_http_internal w r (armed w r m)).2) = None)
      as Hearly.
    { intros n Hn Hlt. revert Htimeout. unfold armed. rewrite Hn. intros Htimeout.
      exact (early_timeout_untouched w r _ n Hlt Htimeout). }
    destruct (_go_http_internal w r (armed w r m)) as [[[] | e |] m1];
      simpl in *; try discriminate.
    eexists. split; [reflexivity |]. simpl.
    refine (conj eq_refl (conj eq_refl (conj eq_refl (conj eq_refl Hearly)))).
  - intros Hover q. rewrite go_http_unfold; cbv zeta.
    pose proof (go_http_internal_raises w r (armed w r m)) as Hraises.
    pose proof (go_http_internal_try_same_exception w r (armed w r m)) as Hframe.
    unfold same_on in Hframe. revert Hover Hraises. rewrite go_http_internal_unfold.
    destruct (_go_http_internal_try w r (armed w r m)) as [[[] | e |] m1];
      simpl in *; intros Hover Hraises.
    + rewrite Hframe. discriminate.
    + intros E; inversion E; subst. exact (Hraises _ eq_refl).
    + congruence.
Qed.

(** A deadline that expires after three switches, and one that does not
    expire. *)
Lemma deadline_outcome_witness :
  (exists resp,
     (go_http (Sample.world Sample.gevent_ok Sample.u3_ok (Some 3%nat))
        Sample.get_gevent (start HttpClient__init__ None)).1 = Return resp /\
     HttpResponse.exception resp
     = Some (TimeoutWhileProcessing (general_timeout_sec Sample.get_gevent)) /\
     HttpResponse.status_code resp = 0%Z /\ HttpResponse.buffer resp = None) /\
  HttpResponse.exception
    (http_response (go_http Sample.fast Sample.get_gevent
                      (start HttpClient__init__ None)).2)
  <> Some (TimeoutWhileProcessing (general_timeout_sec Sample.get_gevent)).
Proof.
  split.
  - destruct (deadline_outcome (Sample.world Sample.gevent_ok Sample.u3_ok (Some 3%nat))
                Sample.get_gevent (start HttpClient__init__ None)) as [H _].
    destruct H as (resp & Hret & Hexc & _ & _ & _ & Hzero); [vm_compute; reflexivity |].
    exists resp. split; [exact Hret |]. split; [exact Hexc |].
    apply (Hzero 3%nat); [reflexivity | lia].
  - destruct (deadline_outcome Sample.fast Sample.get_gevent
                (start HttpClient__init__ None)) as [_ H].
    apply H. vm_compute. discriminate.
Defined.

(** C3, as stated, fails: the deadline expires while the gevent backend reads
    the body; the response returned carries the timeout error and the status
    code 200 the backend had stored. *)
Lemma timeout_after_status :
  exists resp,
    (go_http Sample.slow Sample.get_gevent (start HttpClient__init__ None)).1
    = Return resp /\
    HttpResponse.exception resp
    = Some (TimeoutWhileProcessing (general_timeout_sec Sample.get_gevent)) /\
    HttpResponse.status_code resp = 200%Z /\
    HttpResponse.status_code resp <> 0%Z /\
    HttpResponse.buffer resp = None.
Proof.
  eexists. split; [vm_compute; reflexivity |].
  split; [vm_compute; reflexivity |]. repeat split. discriminate.
Qed.

(** ** Content length *)

Lemma bind_inv_Return {A B} (c : M A) (k : A -> M B) m b m' :
  bind c k m = (Return b, m') ->
  exists a m1, c m = (Return a, m1) /\ k a m1 = (Return b, m').
Proof.
  unfold bind. destruct (c m) as [[a | e |] m1]; intros H; try discriminate.
  exists a, m1. split; [reflexivity | exact H].
Qed.

Ltac invert_binds :=
  repeat match goal with
         | H : bind _ _ _ = (Return _, _) |- _ =>
             apply bind_inv_Return in H; destruct H as (? & ? & ? & H)
         end.

Lemma sleep0_response m o m' : sleep0 m = (o, m') -> http_response m' = http_response m.
Proof.
  unfold sleep0. destruct (timer m) as [[|n]|]; intros H; inversion H; reflexivity.
Qed.

Lemma gevent_content_length_cases :
  (forall n body, n <> 0%Z -> gevent_content_length (Some n) body = n) /\
  (forall body, gevent_content_length None body = py_len body) /\
  (forall body, gevent_content_length (Some 0%Z) body = py_len body) /\
  gevent_content_length None "" = 0%Z.
Proof.
  unfold gevent_content_length, truthy_opt_int. repeat split.
  - intros n body Hn. apply Z.eqb_neq in Hn. rewrite Hn. reflexivity.
  - intros [|a body]; reflexivity.
  - intros [|a body]; reflexivity.
Qed.

Lemma gevent_process_returns response m m' :
  gevent_process response m = (Return tt, m') ->
  exists reply body,
    response = Some reply /\
    GeventResponse.read reply = Ok body /\
    HttpResponse.buffer (http_response m') = Some body /\
    HttpResponse.content_length (http_response m')
    = gevent_content_length (GeventResponse.content_length reply) body.
Proof.
  destruct response as [reply |]; [| discriminate].
  unfold gevent_process. intros H. invert_binds.
  repeat match goal with
         | H : modify_response _ _ = (_, _) |- _ =>
             unfold modify_response in H; inversion H; subst; clear H
         end.
  match goal with
  | H : io _ _ = _ |- _ =>
      unfold io in H; apply bind_inv_Return in H; destruct H as (? & ? & Hs & H)
  end.
  destruct (GeventResponse.read reply) as [body | what] eqn:Hread; [| discriminate].
  match goal with
  | Hc : call (Ok body) _ = _ |- _ => simpl in Hc; inversion Hc; subst; clear Hc
  end.
  repeat match goal with
         | H : sleep0 _ = (_, _) |- _ => apply sleep0_response in H; simpl in H
         end.
  eexists reply, _. split; [reflexivity | split; [exact Hread |]].
  match goal with
  | H2 : http_response m' = _, H3 : http_response _ = HttpResponse.set_buffer _ _ |- _ =>
      rewrite H2; simpl; rewrite H3; simpl
  end.
  split; reflexivity.
Qed.

Lemma u3_process_stores reply m :
  HttpResponse.buffer (http_response (u3_process reply m).2)
  = Some (U3Response.data reply) /\
  HttpResponse.content_length (http_response (u3_process reply m).2)
  = py_len (U3Response.data reply).
Proof.
  unfold u3_process, bind, modify_response, sleep0; simpl.
  destruct (timer m) as [[|n]|]; split; reflexivity.
Qed.

Lemma gevent_call_returns w http verb uri body headers m response m' :
  gevent_call w http verb uri body headers m = (Return response, m') ->
  gevent_request w http verb uri body headers = Ok response.
Proof.
  unfold gevent_call, io. intros H. invert_binds.
  destruct (gevent_request w http verb uri body headers); simpl in H;
    inversion H; reflexivity.
Qed.

Lemma u3_urlopen_returns w conn method url body headers m reply m' :
  u3_urlopen w conn method url body headers m = (Return reply, m') ->
  urlopen w conn method url body headers = Ok reply.
Proof.
  unfold u3_urlopen, io. intros H. invert_binds.
  destruct (urlopen w conn method url body headers); simpl in H;
    inversion H; reflexivity.
Qed.

Lemma gevent_fire_returns w http url r m response m' :
  gevent_fire w http url r m = (Return response, m') ->
  exists verb body,
    gevent_request w http verb (URL.request_uri url) body (HttpRequest.headers r)
    = Ok response.
Proof.
  unfold gevent_fire; cbv zeta.
  repeat match goal with
         | |- context [if ?b then _ else _] => destruct b
         end;
    intros H; try discriminate; eexists _, _; eapply gevent_call_returns; exact H.
Qed.

Lemma u3_fire_returns w conn r m reply m' :
  u3_fire w conn r m = (Return reply, m') ->
  exists method body,
    urlopen w conn method (HttpRequest.uri r) body (HttpRequest.headers r) = Ok reply.
Proof.
  unfold u3_fire; cbv zeta.
  repeat match goal with
         | |- context [if ?b then _ else _] => destruct b
         end;
    intros H; try discriminate; eexists _, _; eapply u3_urlopen_returns; exact H.
Qed.

(** A reply the gevent backend was given and has processed to the end. *)
Lemma go_gevent_returns w r m m' :
  _go_gevent w r m = (Return tt, m') ->
  exists http verb uri sent reply body,
    gevent_request w http verb uri sent (HttpRequest.headers r) = Ok (Some reply) /\
    GeventResponse.read reply = Ok body /\
    HttpResponse.buffer (http_response m') = Some body /\
    HttpResponse.content_length (http_response m')
    = gevent_content_length (GeventResponse.content_length reply) body.
Proof.
  unfold _go_gevent. intros H. invert_binds.
  apply gevent_process_returns in H.
  destruct H as (reply & body & -> & Hread & Hbuffer & Hlength).
  match goal with
  | Hfire : gevent_fire _ _ _ _ _ = _ |- _ =>
      apply gevent_fire_returns in Hfire; destruct Hfire as (verb & sent & Hfire)
  end.
  eexists _, verb, _, sent, reply, body. eauto.
Qed.

(** A reply the urllib3 backend was given and has processed. *)
Lemma go_urllib3_returns w r m m' :
  _go_urllib3 w r m = (Return tt, m') ->
  exists conn method sent reply,
    urlopen w conn method (HttpRequest.uri r) sent (HttpRequest.headers r) = Ok reply /\
    HttpResponse.buffer (http_response m') = Some (U3Response.data reply) /\
    HttpResponse.content_length (http_response m') = py_len (U3Response.data reply).
Proof.
  unfold _go_urllib3. intros H. invert_binds.
  match goal with
  | Hfire : u3_fire _ _ _ _ = (Return ?reply, _) |- _ =>
      apply u3_fire_returns in Hfire; destruct Hfire as (method & sent & Hfire);
      pose proof (u3_process_stores reply) as Hstores
  end.
  match goal with
  | Hp : u3_process ?reply ?m0 = _ |- _ => specialize (Hstores m0); rewrite Hp in Hstores
  end.
  eexists _, method, sent, _. split; [eassumption | exact Hstores].
Qed.

(** The backend that has run when [_go_http_internal] returns. *)
Lemma go_http_internal_returns w r m m' :
  _go_http_internal w r m = (Return tt, m') ->
  exists m0 m1,
    http_response m' = http_response m1 /\
    (_go_gevent w r m0 = (Return tt, m1) /\
     HttpResponse.http_implementation (http_response m') = Some HTTP_IMPL_GEVENT \/
     _go_urllib3 w r m0 = (Return tt, m1) /\
     HttpResponse.http_implementation (http_response m') = Some HTTP_IMPL_URLLIB3).
Proof.
  rewrite go_http_internal_unfold.
  destruct (_go_http_internal_try w r m) as [[[] | e |] m2] eqn:Htry;
    intros H; inversion H; subst; clear H.
  unfold _go_http_internal_try in Htry. invert_binds. cbv zeta in Htry.
  repeat case_decide; try discriminate; invert_binds.
  - match goal with
    | Hs : sleep0 ?m1 = (_, m'), Hg : _go_gevent w r ?m0 = (Return ?u, ?m1) |- _ =>
        apply sleep0_response in Hs; exists m0, m1; split; [exact Hs |]; left;
        destruct u; split; [exact Hg |]; rewrite Hs;
        pose proof (go_gevent_implementation w r m0) as Hi; rewrite Hg in Hi; exact Hi
    end.
  - match goal with
    | Hs : sleep0 ?m1 = (_, m'), Hg : _go_urllib3 w r ?m0 = (Return ?u, ?m1) |- _ =>
        apply sleep0_response in Hs; exists m0, m1; split; [exact Hs |]; right;
        destruct u; split; [exact Hg |]; rewrite Hs;
        pose proof (go_urllib3_implementation w r m0) as Hi; rewrite Hg in Hi; exact Hi
    end.
Qed.

(** C8, as the code has it: for a request that was executed without error,
    the gevent backend stores the content length its reply reports when that
    is neither missing nor 0, and else the length of the body read (0 for an
    empty body); the urllib3 backend always stores the length of the body of
    its reply, whatever length the reply announces. *)
Theorem content_length_resolution w r m resp :
  (go_http w r m).1 = Return resp ->
  HttpResponse.exception resp = None ->
  (HttpResponse.http_implementation resp = Some HTTP_IMPL_GEVENT /\
   exists http verb uri sent reply body,
     gevent_request w http verb uri sent (HttpRequest.headers r) = Ok (Some reply) /\
     GeventResponse.read reply = Ok body /\
     HttpResponse.buffer resp = Some body /\
     (forall n, GeventResponse.content_length reply = Some n -> n <> 0%Z ->
        HttpResponse.content_length resp = n) /\
     (GeventResponse.content_length reply = None \/
      GeventResponse.content_length reply = Some 0%Z ->
        HttpResponse.content_length resp = py_len body) /\
     (body = "" -> GeventResponse.content_length reply = None ->
        HttpResponse.content_length resp = 0%Z)) \/
  (HttpResponse.http_implementation resp = Some HTTP_IMPL_URLLIB3 /\
   exists conn method sent reply,
     urlopen w conn method (HttpRequest.uri r) sent (HttpRequest.headers r) = Ok reply /\
     HttpResponse.buffer resp = Some (U3Response.data reply) /\
     HttpResponse.content_length resp = py_len (U3Response.data reply)).
Proof.
  rewrite go_http_unfold; cbv zeta.
  destruct (_go_http_internal w r (armed w r m)) as [[[] | e |] m1] eqn:Hinner;
    simpl; intros Hret Hexc; inversion Hret; subst; clear Hret;
    [| discriminate].
  simpl in *.
  destruct (go_http_internal_returns _ _ _ _ Hinner)
    as (m0 & m2 & Hresp & [[Hrun Himpl] | [Hrun Himpl]]).
  - left. split; [exact Himpl |].
    destruct (go_gevent_returns _ _ _ _ Hrun)
      as (http & verb & uri & sent & reply & body & Hreq & Hread & Hbuf & Hlen).
    destruct gevent_content_length_cases as (Hsome & Hnone & Hzero & _).
    exists http, verb, uri, sent, reply, body. rewrite Hresp.
    refine (conj Hreq (conj Hread (conj Hbuf (conj _ (conj _ _))))).
    + intros n Hn Hne. rewrite Hlen, Hn. apply Hsome. exact Hne.
    + intros [Hn | Hn]; rewrite Hlen, Hn; [apply Hnone | apply Hzero].
    + intros -> Hn. rewrite Hlen, Hn. reflexivity.
  - right. split; [exact Himpl |].
    destruct (go_urllib3_returns _ _ _ _ Hrun)
      as (conn & method & sent & reply & Hreq & Hbuf & Hlen).
    exists conn, method, sent, reply. rewrite Hresp. auto.
Qed.

(** A reported length through gevent, a body through urllib3. *)
Lemma content_length_resolution_witness :
  (exists resp,
     (go_http Sample.head (Sample.send HTTP_IMPL_GEVENT (Some "HEAD") None)
        (start HttpClient__init__ None)).1 = Return resp /\
     HttpResponse.content_length resp = 5%Z) /\
  (exists resp,
     (go_http Sample.fast (Sample.send HTTP_IMPL_URLLIB3 (Some "GET") None)
        (start HttpClient__init__ None)).1 = Return resp /\
     HttpResponse.content_length resp = py_len "ok").
Proof.
  split.
  - eexists. split; [vm_compute; reflexivity |].
    match goal with
    | |- HttpResponse.content_length ?resp = _ =>
        destruct (content_length_resolution Sample.head
                    (Sample.send HTTP_IMPL_GEVENT (Some "HEAD") None)
                    (start HttpClient__init__ None) resp)
          as [(_ & http & verb & uri & sent & reply & body & Hreq & _ & _ & Hn & _)
             | (Himpl & _)]
    end.
    + vm_compute. reflexivity.
    + reflexivity.
    + simpl in Hreq. inversion Hreq; subst. apply (Hn 5%Z); [reflexivity | discriminate].
    + discriminate.
  - eexists. split; [vm_compute; reflexivity |].
    match goal with
    | |- HttpResponse.content_length ?resp = _ =>
        destruct (content_length_resolution Sample.fast
                    (Sample.send HTTP_IMPL_URLLIB3 (Some "GET") None)
                    (start HttpClient__init__ None) resp)
          as [(Himpl & _)
             | (_ & conn & method & sent & reply & Hreq & _ & Hlen)]
    end.
    + vm_compute. reflexivity.
    + reflexivity.
    + discriminate.
    + simpl in Hreq. inversion Hreq; subst. exact Hlen.
Defined.

(** C8, as stated, fails for urllib3: the reply to a [HEAD] announces a length
    of 5 and has no body; the gevent backend stores 5, the urllib3 backend
    stores 0 next to the [Content-Length] header it merged. *)
Lemma urllib3_ignores_reported_length :
  (exists resp,
     (go_http Sample.head (Sample.send HTTP_IMPL_URLLIB3 (Some "HEAD") None)
        (start HttpClient__init__ None)).1 = Return resp /\
     HttpResponse.exception resp = None /\
     HttpResponse.headers resp !! "Content-Length" = Some (Scalar "5") /\
     HttpResponse.buffer resp = Some "" /\
     HttpResponse.content_length resp = 0%Z) /\
  (exists resp,
     (go_http Sample.head (Sample.send HTTP_IMPL_GEVENT (Some "HEAD") None)
        (start HttpClient__init__ None)).1 = Return resp /\
     HttpResponse.exception resp = None /\
     HttpResponse.headers resp !! "Content-Length" = Some (Scalar "5") /\
     HttpResponse.buffer resp = Some "" /\
     HttpResponse.content_length resp = 5%Z).
Proof.
  split; eexists; (split; [vm_compute; reflexivity |]); repeat split.
Qed.

(** * Further properties *)

(** ** Entries of the registries *)

Lemma gevent_from_pool_keeps_gevent_entry url r k v :
  preserves (keeps (fun c => _gevent_pool c !! k = Some v)) (gevent_from_pool url r).
Proof.
  intros m Hk. run_pool; auto.
  all: simpl; rewrite lookup_insert_ne; auto; intros E; congruence.
Qed.

Lemma urllib3_from_pool_keeps_gevent_entry r k v :
  preserves (keeps (fun c => _gevent_pool c !! k = Some v)) (urllib3_from_pool r).
Proof. intros m Hk. run_pool; auto. Qed.

Lemma gevent_from_pool_keeps_proxy_entry url r k p :
  preserves (keeps (fun c => _u3_proxy_pool c !! k = Some p)) (gevent_from_pool url r).
Proof. intros m Hk. run_pool; auto. Qed.

Lemma urllib3_from_pool_keeps_proxy_entry r k p :
  preserves (keeps (fun c => _u3_proxy_pool c !! k = Some p)) (urllib3_from_pool r).
Proof.
  intros m Hk. run_pool; auto.
  all: simpl; rewrite lookup_insert_ne; auto; intros E; congruence.
Qed.

(** [preserves_auto] for a property of the client the pool functions keep. *)
Ltac preserves_entries :=
  cbv zeta;
  repeat (first [ apply gevent_from_pool_keeps_gevent_entry
                | apply urllib3_from_pool_keeps_gevent_entry
                | apply gevent_from_pool_keeps_proxy_entry
                | apply urllib3_from_pool_keeps_proxy_entry
                | preserves_rule ];
          preserves_side; cbv zeta).

Lemma go_http_keeps_gevent_entry w r k v :
  preserves (keeps (fun c => _gevent_pool c !! k = Some v)) (go_http w r).
Proof. unfold_client. preserves_entries. all: intros H; exact H. Qed.

Lemma go_http_keeps_proxy_entry w r k p :
  preserves (keeps (fun c => _u3_proxy_pool c !! k = Some p)) (go_http w r).
Proof. unfold_client. preserves_entries. all: intros H; exact H. Qed.

Lemma after_gevent_pool_subseteq op t c :
  _gevent_pool c ⊆ _gevent_pool (after op t c).
Proof.
  apply map_subseteq_spec. intros k v Hk. destruct op as [url r | r | w r]; simpl.
  - exact (gevent_from_pool_keeps_gevent_entry url r k v (start c t) Hk).
  - exact (urllib3_from_pool_keeps_gevent_entry r k v (start c t) Hk).
  - exact (go_http_keeps_gevent_entry w r k v (start c t) Hk).
Qed.

Lemma after_proxy_pool_subseteq op t c :
  _u3_proxy_pool c ⊆ _u3_proxy_pool (after op t c).
Proof.
  apply map_subseteq_spec. intros k p Hk. destruct op as [url r | r | w r]; simpl.
  - exact (gevent_from_pool_keeps_proxy_entry url r k p (start c t) Hk).
  - exact (urllib3_from_pool_keeps_proxy_entry r k p (start c t) Hk).
  - exact (go_http_keeps_proxy_entry w r k p (start c t) Hk).
Qed.

(** X1: no operation of the client removes a key from a registry: a key
    that holds an entry before a call of [gevent_from_pool],
    [urllib3_from_pool] or [go_http] holds one after it, however the call
    ends, and no registry gets smaller. *)
Theorem registry_keys_kept op t c :
  (forall k, is_Some (_gevent_pool c !! k) ->
             is_Some (_gevent_pool (after op t c) !! k)) /\
  (forall k, is_Some (_u3_proxy_pool c !! k) ->
             is_Some (_u3_proxy_pool (after op t c) !! k)) /\
  (size (_gevent_pool c) <= size (_gevent_pool (after op t c)))%nat /\
  (size (_u3_proxy_pool c) <= size (_u3_proxy_pool (after op t c)))%nat.
Proof.
  pose proof (after_gevent_pool_subseteq op t c) as Hg.
  pose proof (after_proxy_pool_subseteq op t c) as Hp.
  split; [| split; [| split]].
  - intros k [v Hk]. exists v. exact (proj1 (map_subseteq_spec _ _) Hg k v Hk).
  - intros k [v Hk]. exists v. exact (proj1 (map_subseteq_spec _ _) Hp k v Hk).
  - apply map_subseteq_size, Hg.
  - apply map_subseteq_size, Hp.
Qed.

(** The keys of a used client are there after one more request. *)
Lemma registry_keys_kept_witness :
  is_Some (_gevent_pool (after (OpGoHttp Sample.slow Sample.get_proxy) (Some 1%nat)
                           Sample.used)
             !! "example.org#80#False#False#False#10#10#8192#None#None#") /\
  is_Some (_u3_proxy_pool (after (OpGeventFromPool Sample.url_https Sample.get_gevent)
                             None Sample.used)
             !! "proxy.local#3128#").
Proof.
  split.
  - apply (proj1 (registry_keys_kept _ _ _)). vm_compute. eexists. reflexivity.
  - apply (proj1 (proj2 (registry_keys_kept _ _ _))). vm_compute. eexists. reflexivity.
Defined.

(** ** What the keys of the registries tell apart *)

Lemma urllib3_from_pool_stored r m pool :
  truthy_opt_str (HttpRequest.http_proxy_host r) = true ->
  (urllib3_from_pool r m).1 = Return pool ->
  exists p, pool = ProxyPool p /\
            _u3_proxy_pool (self (urllib3_from_pool r m).2) !! u3_proxy_pool_key r = Some p.
Proof.
  intros Hproxy. unfold urllib3_from_pool. rewrite Hproxy; simpl.
  run_pool; simpl; intros E; try discriminate; inversion E; subst; eexists;
    (split; [reflexivity |]); auto.
  all: apply lookup_insert_eq.
Qed.





(** ** What a registry hands out *)

(** X2: the client [gevent_from_pool] returns is the one its registry
    holds under the request's key when it returns; when the key was not
    there at the call, it is the one built from this URL and request inside
    the lock.  However the call ends, the lock is not held afterwards: the
    call adds no event, or takes the lock first and releases it last. *)
Theorem gevent_from_pool_serves_stored url r m :
  let key := gevent_pool_key url r in
  let result := gevent_from_pool url r m in
  (forall http,
     result.1 = Return http ->
     _gevent_pool (self result.2) !! key = Some http /\
     (_gevent_pool (self m) !! key = None ->
      http = gevent_entry url r /\
      trace result.2
      = (trace m ++ [Acquire _gevent_locker; EvHTTPClient_from_url http;
                     Release _gevent_locker])%list)) /\
  (trace result.2 = trace m \/
   exists events,
     trace result.2 = (trace m ++ events)%list /\
     locked_section _gevent_locker events).
Proof.
  intros key result. subst key result. split.
  - intros http Hret. split; [exact (gevent_from_pool_stored _ _ _ _ Hret) |].
    intros Hnone. split; [exact (gevent_from_pool_built _ _ _ _ Hnone Hret) |].
    revert Hret. unfold gevent_from_pool; cbv zeta.
    unfold bind at 1, get_self. rewrite Hnone.
    run_pool; simpl; intros E; try discriminate; inversion E; subst.
    all: rewrite <- ?app_assoc; reflexivity.
  - run_pool; simpl; try (left; reflexivity).
    all: right; rewrite <- ?app_assoc; simpl.
    all: first [ exists [Acquire _gevent_locker; Release _gevent_locker];
                 split; [reflexivity |]; exists []; split; [reflexivity | constructor]
               | eexists; split; [reflexivity |]; eexists [_];
                 split; [reflexivity |]; repeat constructor ].
Qed.

(** A new server on a used client. *)
Lemma gevent_from_pool_serves_stored_witness :
  let result :=
    gevent_from_pool Sample.url_https Sample.get_gevent (start Sample.used None) in
  result.1 = Return (gevent_entry Sample.url_https Sample.get_gevent) /\
  _gevent_pool (self result.2) !! "example.org#443#True#False#False#10#10#8192#None#None#"
  = Some (gevent_entry Sample.url_https Sample.get_gevent) /\
  last (trace result.2) = Some (Release _gevent_locker).
Proof.
  cbv zeta.
  destruct (gevent_from_pool_serves_stored Sample.url_https Sample.get_gevent
              (start Sample.used None)) as [Hret _].
  destruct (Hret (gevent_entry Sample.url_https Sample.get_gevent))
    as (Hstored & Hmiss); [vm_compute; reflexivity |].
  destruct Hmiss as (_ & Htrace); [vm_compute; reflexivity |].
  split; [vm_compute; reflexivity |]. split; [exact Hstored |].
  rewrite Htrace. reflexivity.
Defined.

(** X3: the same for [urllib3_from_pool] with a proxy host: the pool it
    returns is the [ProxyManager] its registry holds under the key of the
    proxy when it returns, built for [http://host:port] inside the lock when
    the key was not there; the lock is not held afterwards, however the call
    ends. *)
Theorem urllib3_from_pool_serves_stored r m :
  truthy_opt_str (HttpRequest.http_proxy_host r) = true ->
  let key := u3_proxy_pool_key r in
  let result := urllib3_from_pool r m in
  (forall pool,
     result.1 = Return pool ->
     exists p,
       pool = ProxyPool p /\
       _u3_proxy_pool (self result.2) !! key = Some p /\
       (_u3_proxy_pool (self m) !! key = None ->
        p = proxy_entry r /\
        trace result.2
        = (trace m ++ [Acquire _u3_proxy_locker; EvProxyManager p;
                       Release _u3_proxy_locker])%list)) /\
  (trace result.2 = trace m \/
   exists events,
     trace result.2 = (trace m ++ events)%list /\
     locked_section _u3_proxy_locker events).
Proof.
  intros Hproxy key result. subst key result. split.
  - intros pool Hret.
    destruct (urllib3_from_pool_stored r m pool Hproxy Hret) as (p & -> & Hstored).
    exists p. split; [reflexivity |]. split; [exact Hstored |].
    intros Hnone. revert Hret. unfold urllib3_from_pool. rewrite Hproxy; cbv zeta.
    cbn [negb]. unfold bind at 1, get_self. rewrite Hnone.
    run_pool; simpl; intros E; try discriminate; inversion E; subst.
    all: split; [reflexivity | rewrite <- ?app_assoc; reflexivity].
  - unfold urllib3_from_pool. rewrite Hproxy; cbn [negb].
    run_pool; simpl; try (left; reflexivity).
    all: right; rewrite <- ?app_assoc; simpl.
    all: first [ exists [Acquire _u3_proxy_locker; Release _u3_proxy_locker];
                 split; [reflexivity |]; exists []; split; [reflexivity | constructor]
               | eexists; split; [reflexivity |]; eexists [_];
                 split; [reflexivity |]; repeat constructor ].
Qed.

(** The first request through a proxy on a new client. *)
Lemma urllib3_from_pool_serves_stored_witness :
  let result := urllib3_from_pool Sample.get_proxy (start HttpClient__init__ None) in
  result.1 = Return (ProxyPool (mkProxyManager 1024 1024 "http://proxy.local:3128")) /\
  _u3_proxy_pool (self result.2) !! "proxy.local#3128#"
  = Some (mkProxyManager 1024 1024 "http://proxy.local:3128") /\
  trace result.2
  = [Acquire _u3_proxy_locker;
     EvProxyManager (mkProxyManager 1024 1024 "http://proxy.local:3128");
     Release _u3_proxy_locker].
Proof.
  cbv zeta.
  destruct (urllib3_from_pool_serves_stored Sample.get_proxy
              (start HttpClient__init__ None)) as [Hret _]; [reflexivity |].
  destruct (Hret (ProxyPool (mkProxyManager 1024 1024 "http://proxy.local:3128")))
    as (p & Hp & Hstored & Hmiss); [vm_compute; reflexivity |].
  inversion Hp; subst p.
  destruct Hmiss as (_ & Htrace); [vm_compute; reflexivity |].
  split; [vm_compute; reflexivity |]. split; [exact Hstored | exact Htrace].
Defined.

(** ** A full registry *)

Lemma after_all_bounded ops c : pools_bounded c -> pools_bounded (after_all ops c).
Proof.
  revert c. induction ops as [| [op t] ops IH]; intros c Hb; [exact Hb |].
  apply IH. destruct op as [url r | r | w r]; simpl.
  - exact (gevent_from_pool_keeps_bounded url r (start c t) Hb).
  - exact (urllib3_from_pool_keeps_bounded r (start c t) Hb).
  - exact (go_http_keeps_bounded w r (start c t) Hb).
Qed.

Lemma after_all_gevent_pool_subseteq ops c :
  _gevent_pool c ⊆ _gevent_pool (after_all ops c).
Proof.
  revert c. induction ops as [| [op t] ops IH]; intros c; [reflexivity |].
  etrans; [apply (after_gevent_pool_subseteq op t c) | apply IH].
Qed.

(** X6: a gevent registry that is full stays full: whatever is done with
    the client afterwards, the registry holds its 1024 keys, and
    [gevent_from_pool] refuses every request whose key is not among them
    with the error of the maxed pool, leaving the client as it is. *)
Theorem registry_full_forever ops c :
  pools_bounded c ->
  size (_gevent_pool c) = 1024%nat ->
  let c' := after_all ops c in
  size (_gevent_pool c') = 1024%nat /\
  (forall k, is_Some (_gevent_pool c !! k) -> is_Some (_gevent_pool c' !! k)) /\
  (forall url r m,
     self m = c' ->
     _gevent_pool c' !! gevent_pool_key url r = None ->
     (gevent_from_pool url r m).1 = RaiseException (GeventPoolMaxed 1024 1024) /\
     self (gevent_from_pool url r m).2 = c').
Proof.
  intros Hb Hfull c'.
  pose proof (after_all_bounded ops c Hb) as (Hmax & _ & Hle & _). fold c' in Hmax, Hle.
  pose proof (after_all_gevent_pool_subseteq ops c) as Hsub. fold c' in Hsub.
  assert (size (_gevent_pool c') = 1024%nat) as Hsize.
  { apply map_subseteq_size in Hsub. lia. }
  split; [exact Hsize |]. split.
  - intros k [v Hk]. exists v. exact (proj1 (map_subseteq_spec _ _) Hsub k v Hk).
  - intros url r m Hm Hnone. rewrite <- Hm in Hnone, Hsize, Hmax.
    unfold gevent_from_pool, with_lock, bind, get_self, raise; cbv zeta; simpl.
    rewrite Hnone; simpl. rewrite Hmax, Hsize; simpl. split; [reflexivity | exact Hm].
Qed.

(** A full registry after two more requests, asked for a new server. *)
Lemma registry_full_forever_witness :
  let c' :=
    after_all [(OpGoHttp Sample.fast Sample.get_proxy, None);
               (OpGoHttp Sample.fast Sample.get_gevent, Some 3%nat)]
              (Sample.filled 1024) in
  size (_gevent_pool c') = 1024%nat /\
  (gevent_from_pool Sample.url_http Sample.get_gevent (start c' None)).1
  = RaiseException (GeventPoolMaxed 1024 1024).
Proof.
  cbv zeta.
  destruct (registry_full_forever
              [(OpGoHttp Sample.fast Sample.get_proxy, None);
               (OpGoHttp Sample.fast Sample.get_gevent, Some 3%nat)]
              (Sample.filled 1024)) as (Hsize & _ & Hrefused).
  - unfold pools_bounded. vm_compute. repeat split; lia.
  - vm_compute. reflexivity.
  - split; [exact Hsize |].
    apply (Hrefused Sample.url_http Sample.get_gevent); [reflexivity |].
    vm_compute. reflexivity.
Defined.

(** ** Merging a list of headers *)

Lemma merged_nil_r o : merged o [] = o.
Proof. reflexivity. Qed.

Lemma merged_step o v vs :
  merged (Some match o with
               | None => Scalar v
               | Some (Scalar v0) => Multi [v0; v]
               | Some (Multi l) => Multi (l ++ [v])
               end) vs
  = merged o (v :: vs).
Proof.
  destruct o as [[v0 | l] |], vs as [| v' vs]; simpl; try reflexivity.
  rewrite <- app_assoc. reflexivity.
Qed.

(** X7: merging the headers of a reply into a mapping loses and reorders
    nothing: under every name the mapping then holds what it held followed by
    the values the reply has for that name, in the reply's order (a scalar for
    one value in all, a list for more); a name is absent afterwards only if it
    was absent before and the reply does not have it. *)
Theorem add_headers_collects items (d : gmap string HeaderValue) k :
  add_headers items d !! k = merged (d !! k) (header_values k items) /\
  (add_headers items d !! k = None <->
   d !! k = None /\ header_values k items = []).
Proof.
  assert (forall items (d : gmap string HeaderValue),
            add_headers items d !! k = merged (d !! k) (header_values k items)) as H.
  { clear. induction items as [| [k' v] items IH]; intros d; [reflexivity |].
    unfold add_headers in *. simpl. rewrite IH. unfold header_values.
    rewrite filter_cons. case_decide as Hk; cbn [fst snd] in *.
    - subst k'. rewrite fmap_cons. cbn [snd]. rewrite <- merged_step. f_equal.
      unfold _add_header.
      destruct (d !! k) as [[v0 | l] |]; rewrite lookup_insert_eq; reflexivity.
    - rewrite add_header_other by exact Hk. reflexivity. }
  split; [apply H |]. rewrite H.
  destruct (header_values k items) as [| v vs]; simpl.
  - split; [intros E; split; [exact E | reflexivity] | intros [E _]; exact E].
  - split; [discriminate | intros [_ E]; discriminate].
Qed.

(** ** The implementation a request resolves to *)

Lemma go_http_internal_try_parsed w r m url :
  URL_new w (HttpRequest.uri r) = Ok url ->
  timer m <> Some 0%nat ->
  exists m0,
    self m0 = self m /\ trace m0 = trace m /\ http_response m0 = http_response m /\
    _go_http_internal_try w r m
    = (let impl := resolve_impl r url in
       if decide (impl = Some HTTP_IMPL_GEVENT) then _go_gevent w r ;; sleep0
       else if decide (impl = Some HTTP_IMPL_URLLIB3) then _go_urllib3 w r ;; sleep0
       else raise InvalidForceHttpImplementation) m0.
Proof.
  intros Hurl Ht. unfold _go_http_internal_try. rewrite Hurl, bind_call_Ok.
  unfold bind at 1. unfold sleep0 at 1.
  destruct (timer m) as [[|n]|]; [congruence | |].
  - exists (set_timer (Some n) m). repeat split.
  - exists m. repeat split.
Qed.

(** X8: a forced implementation that is neither gevent (1) nor urllib3 (3) is
    refused with [Invalid force_http_implementation]: the error is stored in
    the response, no registry is touched and no backend is called.  A proxy
    with an https target hides the mistake: the request is then served by
    urllib3 like any other. *)
Theorem invalid_forced_implementation w r m url x :
  URL_new w (HttpRequest.uri r) = Ok url ->
  timer m <> Some 0%nat ->
  HttpRequest.force_http_implementation r = Some x ->
  x <> HTTP_IMPL_GEVENT -> x <> HTTP_IMPL_URLLIB3 ->
  let overridden :=
    truthy_opt_str (HttpRequest.http_proxy_host r)
    && String.eqb (URL.scheme url) PROTO_HTTPS in
  let result := _go_http_internal w r m in
  (overridden = false ->
   result.1 = RaiseException InvalidForceHttpImplementation /\
   self result.2 = self m /\ trace result.2 = trace m /\
   http_response result.2
   = HttpResponse.set_exception (Some InvalidForceHttpImplementation) (http_response m)) /\
  (overridden = true ->
   HttpResponse.http_implementation (http_response result.2) = Some HTTP_IMPL_URLLIB3).
Proof.
  intros Hurl Ht Hforce Hg Hu overridden result. subst result. split; intros Hover.
  - destruct (go_http_internal_try_parsed w r m url Hurl Ht)
      as (m0 & Hself & Htrace & Hresp & Hrun).
    rewrite go_http_internal_unfold, Hrun. cbv zeta.
    assert (resolve_impl r url = Some x) as ->.
    { unfold resolve_impl, HTTP_IMPL_AUTO. rewrite Hforce.
      case_decide; [discriminate |]. fold overridden. rewrite Hover. reflexivity. }
    repeat case_decide; try congruence.
    simpl. rewrite Hself, Htrace, Hresp. repeat split.
  - apply (go_http_internal_implementation w r m url HTTP_IMPL_URLLIB3 Hurl Ht);
      [| right; reflexivity].
    unfold resolve_impl. fold overridden. rewrite Hover. reflexivity.
Qed.

Lemma invalid_forced_implementation_witness :
  (_go_http_internal Sample.fast Sample.forced_unknown (start HttpClient__init__ None)).1
  = RaiseException InvalidForceHttpImplementation /\
  trace (_go_http_internal Sample.fast Sample.forced_unknown
           (start HttpClient__init__ None)).2 = [] /\
  HttpResponse.http_implementation
    (http_response (_go_http_internal Sample.fast Sample.forced_unknown_proxy_https
                      (start HttpClient__init__ None)).2)
  = Some HTTP_IMPL_URLLIB3.
Proof.
  split; [| split].
  - apply (invalid_forced_implementation Sample.fast Sample.forced_unknown
             (start HttpClient__init__ None) Sample.url_http 2%Z);
      try reflexivity; discriminate.
  - apply (invalid_forced_implementation Sample.fast Sample.forced_unknown
             (start HttpClient__init__ None) Sample.url_http 2%Z);
      try reflexivity; discriminate.
  - apply (invalid_forced_implementation Sample.fast Sample.forced_unknown_proxy_https
             (start HttpClient__init__ None) Sample.url_https 2%Z);
      try reflexivity; discriminate.
Defined.

(** X9: a request that forces no implementation is served by urllib3, with or
    without proxy and whatever the scheme of its target. *)
Theorem default_backend_is_urllib3 w r m url :
  HttpRequest.force_http_implementation r = HTTP_IMPL_AUTO ->
  URL_new w (HttpRequest.uri r) = Ok url ->
  timer m <> Some 0%nat ->
  resolve_impl r url = Some HTTP_IMPL_URLLIB3 /\
  HttpResponse.http_implementation (http_response (_go_http_internal w r m).2)
  = Some HTTP_IMPL_URLLIB3.
Proof.
  intros Hforce Hurl Ht.
  assert (resolve_impl r url = Some HTTP_IMPL_URLLIB3) as Hresolve.
  { unfold resolve_impl. rewrite Hforce. rewrite decide_True by reflexivity.
    destruct (_ && _); reflexivity. }
  split; [exact Hresolve |].
  apply (go_http_internal_implementation w r m url HTTP_IMPL_URLLIB3 Hurl Ht Hresolve).
  right; reflexivity.
Qed.

Lemma default_backend_is_urllib3_witness :
  HttpResponse.http_implementation
    (http_response
       (_go_http_internal Sample.fast
          (Sample.request "http://example.org/ping" None None None None None)
          (start HttpClient__init__ None)).2)
  = Some HTTP_IMPL_URLLIB3.
Proof.
  apply (default_backend_is_urllib3 Sample.fast
           (Sample.request "http://example.org/ping" None None None None None)
           (start HttpClient__init__ None) Sample.url_http);
    [reflexivity | reflexivity | discriminate].
Defined.

(** ** What [go_http] does on every way out *)

Lemma go_http_internal_same_request w r :
  preserves (same_on (fun _ resp => HttpResponse.http_request resp))
            (_go_http_internal w r).
Proof. unfold_client. preserves_auto. all: reflexivity. Qed.

(** X10: however the call ends (response returned, exception raised), the
    response object [go_http] made is a new one that carries the request and
    the elapsed time, and the deadline is cancelled; the response returned is
    that object. *)
Theorem go_http_always_finishes w r m :
  let result := go_http w r m in
  HttpResponse.http_request (http_response result.2) = Some r /\
  HttpResponse.elapsed_ms (http_response result.2) = Some (msdiff w) /\
  timer result.2 = None /\
  (forall resp, result.1 = Return resp -> resp = http_response result.2).
Proof.
  cbv zeta. rewrite go_http_unfold; cbv zeta.
  pose proof (go_http_internal_same_request w r (armed w r m)) as Hreq.
  unfold same_on in Hreq. simpl in Hreq.
  destruct (_go_http_internal w r (armed w r m)) as [[[] | e |] m1]; simpl in *.
  all: repeat split; auto; intros resp E; inversion E; reflexivity.
Qed.

(** ** The response of a successful call *)

Lemma call_inv {A} (t : Try A) m o m' : call t m = (o, m') -> m' = m.
Proof. destruct t; simpl; intros H; inversion H; reflexivity. Qed.

Lemma gevent_from_pool_response url r m :
  http_response (gevent_from_pool url r m).2 = http_response m.
Proof.
  apply (gevent_from_pool_same_on (fun _ resp => resp) url r); intros; reflexivity.
Qed.

Lemma urllib3_from_pool_response r m :
  http_response (urllib3_from_pool r m).2 = http_response m.
Proof.
  apply (urllib3_from_pool_same_on (fun _ resp => resp) r); intros; reflexivity.
Qed.

Lemma gevent_fire_response w http url r m :
  http_response (gevent_fire w http url r m).2 = http_response m.
Proof.
  assert (preserves (same_on (fun _ resp => resp)) (gevent_fire w http url r)) as H
    by (unfold gevent_fire, gevent_call; preserves_auto).
  apply H.
Qed.

Lemma u3_fire_response w conn r m :
  http_response (u3_fire w conn r m).2 = http_response m.
Proof.
  assert (preserves (same_on (fun _ resp => resp)) (u3_fire w conn r)) as H
    by (unfold u3_fire, u3_urlopen; preserves_auto).
  apply H.
Qed.

(** The response object in the state a computation has left. *)
Ltac response_of H :=
  lazymatch type of H with
  | sleep0 _ = _ => apply sleep0_response in H
  | call _ _ = _ => apply call_inv in H; subst
  | modify_response _ _ = _ => unfold modify_response in H; inversion H; subst; clear H
  | gevent_from_pool ?url ?r ?m = (_, ?m') =>
      let E := fresh "E" in
      pose proof (gevent_from_pool_response url r m) as E; rewrite H in E; simpl in E
  | urllib3_from_pool ?r ?m = (_, ?m') =>
      let E := fresh "E" in
      pose proof (urllib3_from_pool_response r m) as E; rewrite H in E; simpl in E
  | gevent_fire ?w ?http ?url ?r ?m = _ =>
      let E := fresh "E" in
      pose proof (gevent_fire_response w http url r m) as E; rewrite H in E; simpl in E
  | u3_fire ?w ?conn ?r ?m = _ =>
      let E := fresh "E" in
      pose proof (u3_fire_response w conn r m) as E; rewrite H in E; simpl in E
  end.

(** What the gevent backend has stored when it returns. *)
Lemma go_gevent_populates w r m m' :
  _go_gevent w r m = (Return tt, m') ->
  exists http verb uri sent reply body,
    gevent_request w http verb uri sent (HttpRequest.headers r) = Ok (Some reply) /\
    GeventResponse.read reply = Ok body /\
    http_response m'
    = HttpResponse.set_headers
        (add_headers (GeventResponse._headers_index reply)
                     (HttpResponse.headers (http_response m)))
        (HttpResponse.set_content_length
           (gevent_content_length (GeventResponse.content_length reply) body)
           (HttpResponse.set_buffer (Some body)
              (HttpResponse.set_status_code (GeventResponse.status_code reply)
                 (HttpResponse.set_http_implementation (Some HTTP_IMPL_GEVENT)
                    (http_response m))))).
Proof.
  unfold _go_gevent. intros H. invert_binds.
  repeat match goal with
         | Hs : sleep0 _ = _ |- _ => response_of Hs
         | Hc : call _ _ = _ |- _ => response_of Hc
         | Hm : modify_response _ _ = _ |- _ => response_of Hm
         end.
  match goal with Hp : gevent_from_pool _ _ _ = _ |- _ => response_of Hp end.
  match goal with
  | Hf : gevent_fire _ _ _ _ _ = _ |- _ =>
      response_of Hf; apply gevent_fire_returns in Hf;
      destruct Hf as (verb & sent & Hfire)
  end.
  match type of H with
  | gevent_process ?response _ = _ => destruct response as [reply |]; [| discriminate]
  end.
  unfold gevent_process in H. invert_binds.
  match goal with
  | Hio : io _ _ = _ |- _ =>
      unfold io in Hio; apply bind_inv_Return in Hio; destruct Hio as (? & ? & Hs & Hio)
  end.
  destruct (GeventResponse.read reply) as [body | what] eqn:Hread; [| discriminate].
  repeat match goal with
         | Hs : sleep0 _ = _ |- _ => response_of Hs
         | Hc : call _ _ = _ |- _ => simpl in Hc; inversion Hc; subst; clear Hc
         | Hm : modify_response _ _ = _ |- _ => response_of Hm
         end.
  simpl in *.
  eexists _, verb, _, sent, reply, _. split; [exact Hfire |]. split; [exact Hread |].
  repeat match goal with
         | E : http_response _ = _ |- _ => rewrite E; clear E; simpl
         end.
  reflexivity.
Qed.

(** What the urllib3 backend has stored when it returns. *)
Lemma go_urllib3_populates w r m m' :
  _go_urllib3 w r m = (Return tt, m') ->
  exists conn method sent reply,
    urlopen w conn method (HttpRequest.uri r) sent (HttpRequest.headers r) = Ok reply /\
    http_response m'
    = HttpResponse.set_content_length (py_len (U3Response.data reply))
        (HttpResponse.set_buffer (Some (U3Response.data reply))
           (HttpResponse.set_headers
              (add_headers (U3Response.headers reply)
                           (HttpResponse.headers (http_response m)))
              (HttpResponse.set_status_code (U3Response.status reply)
                 (HttpResponse.set_http_implementation (Some HTTP_IMPL_URLLIB3)
                    (http_response m))))).
Proof.
  unfold _go_urllib3. intros H. invert_binds.
  match goal with Hp : urllib3_from_pool _ _ = _ |- _ => response_of Hp end.
  match goal with
  | Hf : u3_fire _ _ _ _ = _ |- _ =>
      response_of Hf; apply u3_fire_returns in Hf; destruct Hf as (method & sent & Hfire)
  end.
  match goal with
  | Hc : (if _ then _ else _) _ = _ |- _ =>
      destruct (truthy_opt_str (HttpRequest.http_proxy_host r));
      [inversion Hc; subst; clear Hc | response_of Hc]
  end.
  all: unfold u3_process in H; invert_binds.
  all: repeat match goal with
              | Hs : sleep0 _ = _ |- _ => response_of Hs
              | Hm : modify_response _ _ = _ |- _ => response_of Hm
              end.
  all: simpl in *.
  all: eexists _, method, sent, _; split; [exact Hfire |].
  all: repeat match goal with
              | E : http_response _ = _ |- _ => rewrite E; clear E; simpl
              end.
  all: reflexivity.
Qed.

(** The backend that ran when [_go_http_internal] returns, and the response
    it started from. *)
Lemma go_http_internal_ran w r m m' :
  _go_http_internal w r m = (Return tt, m') ->
  exists m0 m1,
    http_response m0 = http_response m /\
    http_response m' = http_response m1 /\
    (_go_gevent w r m0 = (Return tt, m1) \/ _go_urllib3 w r m0 = (Return tt, m1)).
Proof.
  rewrite go_http_internal_unfold.
  destruct (_go_http_internal_try w r m) as [[[] | e |] m2] eqn:Htry;
    intros H; inversion H; subst; clear H.
  unfold _go_http_internal_try in Htry. invert_binds. cbv zeta in Htry.
  repeat case_decide; try discriminate; invert_binds.
  all: repeat match goal with
              | Hs : sleep0 _ = _ |- _ => response_of Hs
              | Hc : call _ _ = _ |- _ => response_of Hc
              end.
  - match goal with
    | Hg : _go_gevent w r ?m0 = (Return ?u, ?m1) |- _ =>
        destruct u; exists m0, m1; split; [assumption |]; split; [assumption |];
        left; exact Hg
    end.
  - match goal with
    | Hg : _go_urllib3 w r ?m0 = (Return ?u, ?m1) |- _ =>
        destruct u; exists m0, m1; split; [assumption |]; split; [assumption |];
        right; exact Hg
    end.
Qed.

(** X11: a call that ended without error stored a reply in the response:
    the status code of the reply, the body read, and as headers the reply's
    headers merged into the headers the response had, whatever these were;
    the gevent backend is the one whose reply came from the gevent client,
    the urllib3 backend the one whose reply came from [urlopen] on the
    request's URI.  For [go_http] the response is the one it returns, it
    carries the request, and the headers it had are those a new response
    object starts with. *)
Theorem success_populates_response w r :
  (forall m m',
     _go_http_internal w r m = (Return tt, m') ->
     populated w r (http_response m) (http_response m')) /\
  (forall m resp,
     (go_http w r m).1 = Return resp ->
     HttpResponse.exception resp = None ->
     HttpResponse.http_request resp = Some r /\
     populated w r HttpResponse.__init__ resp).
Proof.
  assert (forall m m',
            _go_http_internal w r m = (Return tt, m') ->
            populated w r (http_response m) (http_response m')) as Hinternal.
  { intros m m' Hinner.
    destruct (go_http_internal_ran _ _ _ _ Hinner)
      as (m0 & m2 & Hstart & Hend & [Hrun | Hrun]).
    - destruct (go_gevent_populates _ _ _ _ Hrun)
        as (http & verb & uri & sent & reply & body & Hreq & Hread & Hresp).
      rewrite Hend, Hresp, Hstart.
      left. exists http, verb, uri, sent, reply, body.
      exact (conj Hreq (conj Hread (conj eq_refl (conj eq_refl (conj eq_refl eq_refl))))).
    - destruct (go_urllib3_populates _ _ _ _ Hrun)
        as (conn & method & sent & reply & Hreq & Hresp).
      rewrite Hend, Hresp, Hstart.
      right. exists conn, method, sent, reply.
      exact (conj Hreq (conj eq_refl (conj eq_refl (conj eq_refl eq_refl)))). }
  split; [exact Hinternal |].
  intros m resp. rewrite go_http_unfold; cbv zeta.
  pose proof (go_http_internal_same_request w r (armed w r m)) as Hrequest.
  destruct (_go_http_internal w r (armed w r m)) as [[[] | e |] m1] eqn:Hinner;
    simpl; intros Hret Hexc; inversion Hret; subst; clear Hret;
    [| discriminate].
  pose proof (Hinternal _ _ Hinner) as Hpop.
  split.
  - unfold same_on in Hrequest. simpl in *. exact Hrequest.
  - destruct Hpop as [(http & verb & uri & sent & reply & body & H1 & H2 & H3 & H4 & H5 & H6)
                     | (conn & method & sent & reply & H1 & H2 & H3 & H4 & H5)].
    + left. exists http, verb, uri, sent, reply, body.
      exact (conj H1 (conj H2 (conj H3 (conj H4 (conj H5 H6))))).
    + right. exists conn, method, sent, reply.
      exact (conj H1 (conj H2 (conj H3 (conj H4 H5)))).
Qed.

(** A GET answered 200 with the body ["ok"] and the header [X-Test: 1]. *)
Lemma success_populates_response_witness :
  exists resp,
    (go_http Sample.fast Sample.get_gevent (start HttpClient__init__ None)).1
    = Return resp /\
    HttpResponse.status_code resp = 200%Z /\
    HttpResponse.buffer resp = Some "ok" /\
    HttpResponse.headers resp !! "X-Test" = Some (Scalar "1").
Proof.
  eexists. split; [vm_compute; reflexivity |].
  match goal with
  | |- HttpResponse.status_code ?resp = _ /\ _ =>
      destruct (proj2 (success_populates_response Sample.fast Sample.get_gevent)
                  (start HttpClient__init__ None) resp)
        as (_ & [(http & verb & uri & sent & reply & body & Hreq & Hread & _ & Hs & Hb & Hh)
                | (conn & method & sent & reply & _ & Himpl & _)])
  end.
  - vm_compute. reflexivity.
  - reflexivity.
  - simpl in Hreq. inversion Hreq; subst. simpl in Hread. inversion Hread; subst.
    split; [exact Hs |]. split; [exact Hb |]. rewrite Hh. reflexivity.
  - discriminate.
Defined.

(** ** A maxed registry, seen from [go_http] *)

Lemma go_gevent_maxed w r m url :
  URL_new w (HttpRequest.uri r) = Ok url ->
  _gevent_pool (self m) !! gevent_pool_key (patched url) r = None ->
  (_gevent_pool_max (self m) <= size (_gevent_pool (self m)))%nat ->
  timer m <> Some 0%nat ->
  exists m',
    _go_gevent w r m
    = (RaiseException (GeventPoolMaxed (size (_gevent_pool (self m)))
                                       (_gevent_pool_max (self m))), m') /\
    self m' = self m /\
    trace m' = (trace m ++ [Acquire _gevent_locker; Release _gevent_locker])%list /\
    http_response m'
    = HttpResponse.set_http_implementation (Some HTTP_IMPL_GEVENT) (http_response m).
Proof.
  intros Hurl Hnone Hfull Ht. apply Nat.leb_le in Hfull.
  unfold _go_gevent. rewrite bind_modify_response, Hurl, bind_call_Ok.
  unfold bind at 1. unfold sleep0 at 1. simpl.
  destruct (timer m) as [[|n]|]; [congruence | |]; cbv zeta.
  all: unfold gevent_from_pool, with_lock, bind, get_self, raise; cbv zeta; simpl.
  all: rewrite Hnone; simpl; rewrite Hfull; simpl.
  all: eexists; split; [reflexivity |]; simpl.
  all: rewrite <- app_assoc; repeat split.
Qed.

Lemma go_http_maxed w r m url :
  URL_new w (HttpRequest.uri r) = Ok url ->
  resolve_impl r url = Some HTTP_IMPL_GEVENT ->
  _gevent_pool (self m) !! gevent_pool_key (patched url) r = None ->
  (_gevent_pool_max (self m) <= size (_gevent_pool (self m)))%nat ->
  deadline w <> Some 0%nat -> deadline w <> Some 1%nat ->
  exists m',
    go_http w r m
    = (RaiseException (GeventPoolMaxed (size (_gevent_pool (self m)))
                                       (_gevent_pool_max (self m))), m') /\
    self m' = self m /\
    trace m' = (trace m ++ [Acquire _gevent_locker; Release _gevent_locker])%list /\
    HttpResponse.exception (http_response m')
    = Some (GeventPoolMaxed (size (_gevent_pool (self m)))
                            (_gevent_pool_max (self m))) /\
    HttpResponse.http_implementation (http_response m') = Some HTTP_IMPL_GEVENT /\
    HttpResponse.status_code (http_response m') = 0%Z /\
    HttpResponse.buffer (http_response m') = None.
Proof.
  intros Hurl Himpl Hnone Hfull Hd0 Hd1.
  rewrite go_http_unfold; cbv zeta. rewrite go_http_internal_unfold.
  unfold _go_http_internal_try. rewrite Hurl, bind_call_Ok.
  unfold bind at 1. unfold sleep0 at 1. unfold armed at 1. cbn [timer set_timer].
  destruct (deadline w) as [[|[|n]]|] eqn:Hd; try congruence; cbv zeta;
    rewrite Himpl; rewrite decide_True by reflexivity.
  - destruct (go_gevent_maxed w r (set_timer (Some (S n)) (armed w r m)) url
                Hurl Hnone Hfull) as (m' & Hg & Hself & Htrace & Hresp);
      [discriminate |].
    rewrite (bind_RaiseException _ _ _ _ _ Hg). simpl.
    eexists; split; [reflexivity |]. simpl.
    rewrite Hself, Htrace, Hresp. unfold armed. rewrite Hd. repeat split.
  - destruct (go_gevent_maxed w r (armed w r m) url Hurl Hnone Hfull)
      as (m' & Hg & Hself & Htrace & Hresp).
    { unfold armed. rewrite Hd. discriminate. }
    rewrite (bind_RaiseException _ _ _ _ _ Hg). simpl.
    eexists; split; [reflexivity |]. simpl.
    rewrite Hself, Htrace, Hresp. unfold armed. rewrite Hd. repeat split.
Qed.

(** X12: a request for the gevent backend whose key is new, on a client whose
    gevent registry is full, makes [go_http] raise the error of the maxed
    pool: the error is stored in the response next to the implementation, the
    lock was taken and released, the client is as it was and no backend was
    called (the deadline not expiring within the first two switches). *)
Theorem capacity_exhaustion_reported w r m url :
  URL_new w (HttpRequest.uri r) = Ok url ->
  resolve_impl r url = Some HTTP_IMPL_GEVENT ->
  _gevent_pool (self m) !! gevent_pool_key (patched url) r = None ->
  (_gevent_pool_max (self m) <= size (_gevent_pool (self m)))%nat ->
  deadline w <> Some 0%nat -> deadline w <> Some 1%nat ->
  let e := GeventPoolMaxed (size (_gevent_pool (self m))) (_gevent_pool_max (self m)) in
  let result := go_http w r m in
  result.1 = RaiseException e /\
  self result.2 = self m /\
  trace result.2 = (trace m ++ [Acquire _gevent_locker; Release _gevent_locker])%list /\
  HttpResponse.exception (http_response result.2) = Some e /\
  HttpResponse.http_implementation (http_response result.2) = Some HTTP_IMPL_GEVENT /\
  HttpResponse.status_code (http_response result.2) = 0%Z /\
  HttpResponse.buffer (http_response result.2) = None.
Proof.
  intros Hurl Himpl Hnone Hfull Hd0 Hd1 e result. subst e result.
  destruct (go_http_maxed w r m url Hurl Himpl Hnone Hfull Hd0 Hd1)
    as (m' & -> & Hrest).
  split; [reflexivity | exact Hrest].
Qed.

(** A request to a new server on a client whose registry is full. *)
Lemma capacity_exhaustion_reported_witness :
  let result :=
    go_http Sample.fast Sample.get_gevent (start (Sample.filled 1024) None) in
  result.1 = RaiseException (GeventPoolMaxed 1024 1024) /\
  trace result.2 = [Acquire _gevent_locker; Release _gevent_locker] /\
  HttpResponse.exception (http_response result.2)
  = Some (GeventPoolMaxed 1024 1024).
Proof.
  cbv zeta.
  destruct (capacity_exhaustion_reported Sample.fast Sample.get_gevent
              (start (Sample.filled 1024) None) Sample.url_http)
    as (Hout & _ & Htrace & Hexc & _).
  - reflexivity.
  - reflexivity.
  - vm_compute. reflexivity.
  - apply Nat.leb_le. vm_compute. reflexivity.
  - discriminate.
  - discriminate.
  - assert (size (_gevent_pool (self (start (Sample.filled 1024) None))) = 1024%nat)
      as Hsize by (vm_compute; reflexivity).
    rewrite Hsize in Hout, Hexc. split; [exact Hout |]. split; [exact Htrace | exact Hexc].
Defined.

(** ** Replies the gevent backend cannot use *)

(** X13: once [_go_gevent] has its pool entry and sends a call, a reply it
    cannot use ends it with an exception, the call being the last event: an
    error of the call and a false value for a response leave the response
    object as it was when the entry was found; an error while the body is
    read comes after the status code was stored, so the status is the
    reply's, with no buffer, length or headers taken from it.  A reply whose
    body can be read makes it return. *)
Theorem gevent_reply_failures w r m url http m1 verb body :
  gevent_ready w r m url http m1 ->
  gevent_fire w http (patched url) r
  = gevent_call w http verb (URL.request_uri (patched url)) body (HttpRequest.headers r) ->
  let sent :=
    set_trace (trace m1 ++ [EvGevent http verb (URL.request_uri (patched url)) body
                                     (HttpRequest.headers r)])%list m1 in
  match gevent_request w http verb (URL.request_uri (patched url)) body
                       (HttpRequest.headers r) with
  | Err what => _go_gevent w r m = (RaiseException (CollaboratorError what), sent)
  | Ok None => _go_gevent w r m = (RaiseException NoResponseFromHttp, sent)
  | Ok (Some response) =>
      match GeventResponse.read response with
      | Err what =>
          _go_gevent w r m
          = (RaiseException (CollaboratorError what),
             set_http_response
               (HttpResponse.set_status_code (GeventResponse.status_code response)
                                             (http_response m1)) sent)
      | Ok _ => (_go_gevent w r m).1 = Return tt
      end
  end.
Proof.
  intros (Ht & Hurl & Hpool) Hfire sent. subst sent.
  pose proof (gevent_from_pool_no_timer (patched url) r (entered HTTP_IMPL_GEVENT m) Ht) as Ht1.
  rewrite Hpool in Ht1; simpl in Ht1.
  rewrite (go_gevent_reaches_fire w r m url http m1 Ht Hurl Hpool), Hfire.
  destruct m1 as [c response0 t events]; simpl in Ht1; subst t.
  unfold gevent_call, io, bind, emit, sleep0, call; simpl.
  destruct (gevent_request w http verb (URL.request_uri (patched url)) body
              (HttpRequest.headers r)) as [[response|]|what]; simpl;
    try reflexivity.
  unfold gevent_process, io, bind, modify_response, sleep0, call; simpl.
  destruct (GeventResponse.read response) as [buffer|what]; reflexivity.
Qed.

(** The connection is reset while the body of a 503 is read. *)
Lemma gevent_reply_failures_witness :
  let result := _go_gevent Sample.broken Sample.get_gevent (start HttpClient__init__ None) in
  result.1 = RaiseException (CollaboratorError "connection reset") /\
  HttpResponse.status_code (http_response result.2) = 503%Z /\
  HttpResponse.buffer (http_response result.2) = None.
Proof.
  cbv zeta.
  pose proof (gevent_reply_failures Sample.broken Sample.get_gevent
                (start HttpClient__init__ None) Sample.url_http Sample.entry
                (gevent_from_pool (patched Sample.url_http) Sample.get_gevent
                   (entered HTTP_IMPL_GEVENT (start HttpClient__init__ None))).2
                http_get NoBody) as H.
  cbv zeta in H. cbn [gevent_request Sample.broken Sample.world GeventResponse.read
                      Sample.gevent_reset] in H.
  rewrite H.
  - repeat split.
  - split; [reflexivity |]. split; [reflexivity |]. vm_compute. reflexivity.
  - reflexivity.
Defined.

(** ** One request, at most one call to a backend *)

Lemma extends_by_same n m m' : trace m' = trace m -> extends_by n m m'.
Proof.
  intros E. exists []. rewrite app_nil_r. split; [exact E | simpl; lia].
Qed.

Lemma extends_by_trans a b m1 m2 m3 :
  extends_by a m1 m2 -> extends_by b m2 m3 -> extends_by (a + b) m1 m3.
Proof.
  intros (t1 & E1 & H1) (t2 & E2 & H2). exists (t1 ++ t2)%list.
  rewrite E2, E1, app_assoc. split; [reflexivity |].
  unfold backend_calls in *. rewrite sum_list_with_app. lia.
Qed.

Lemma extends_by_event n m e :
  (call_count e <= n)%nat -> extends_by n m (set_trace (trace m ++ [e]) m).
Proof.
  intros H. exists [e]. split; [reflexivity |].
  unfold backend_calls. simpl. lia.
Qed.

Lemma calls_ret n {A} (a : A) : calls_at_most n (ret a).
Proof. intros m. apply extends_by_same. reflexivity. Qed.

Lemma calls_raise n {A} e : calls_at_most n (@raise A e).
Proof. intros m. apply extends_by_same. reflexivity. Qed.

Lemma calls_get_self n : calls_at_most n get_self.
Proof. intros m. apply extends_by_same. reflexivity. Qed.

Lemma calls_get_response n : calls_at_most n get_response.
Proof. intros m. apply extends_by_same. reflexivity. Qed.

Lemma calls_sleep0 n : calls_at_most n sleep0.
Proof.
  intros m. apply extends_by_same. unfold sleep0.
  destruct (timer m) as [[|k]|]; reflexivity.
Qed.

Lemma calls_modify_response n f : calls_at_most n (modify_response f).
Proof. intros m. apply extends_by_same. reflexivity. Qed.

Lemma calls_modify_self n f : calls_at_most n (modify_self f).
Proof. intros m. apply extends_by_same. reflexivity. Qed.

Lemma calls_emit n e : (call_count e <= n)%nat -> calls_at_most n (emit e).
Proof. intros H m. apply extends_by_event, H. Qed.

Lemma calls_bind a b {A B} (c : M A) (k : A -> M B) :
  calls_at_most a c -> (forall x, calls_at_most b (k x)) ->
  calls_at_most (a + b) (bind c k).
Proof.
  intros Hc Hk m. unfold bind. specialize (Hc m).
  destruct (c m) as [[x | e |] m1]; simpl in *.
  - eapply extends_by_trans; [exact Hc | apply Hk].
  - replace (a + b)%nat with (a + b + 0)%nat by lia.
    destruct Hc as (t & E & H). exists t. split; [exact E | lia].
  - destruct Hc as (t & E & H). exists t. split; [exact E | lia].
Qed.

Lemma calls_call n {A} (r : Try A) : calls_at_most n (call r).
Proof. destruct r; [apply calls_ret | apply calls_raise]. Qed.

Lemma calls_io n {A} (r : Try A) : calls_at_most n (io r).
Proof.
  apply (calls_bind 0 n); [apply calls_sleep0 | intros; apply calls_call].
Qed.

Lemma calls_with_lock n {A} l (body : M A) :
  calls_at_most n body -> calls_at_most n (with_lock l body).
Proof.
  intros H m. unfold with_lock.
  specialize (H (set_trace (trace m ++ [Acquire l]) m)).
  destruct (body _) as [o m1]; simpl in *.
  destruct H as (t & E & Ht). simpl in E.
  exists ([Acquire l] ++ t ++ [Release l])%list. simpl. rewrite E.
  split; [rewrite <- !app_assoc; reflexivity |].
  unfold backend_calls in *. simpl. rewrite sum_list_with_app. simpl. lia.
Qed.

Lemma calls_try_except_Exception a b {A} (body : M A) handler :
  calls_at_most a body -> (forall e, calls_at_most b (handler e)) ->
  calls_at_most (a + b) (try_except_Exception body handler).
Proof.
  intros Hb Hh m. unfold try_except_Exception. specialize (Hb m).
  destruct (body m) as [[x | e |] m1]; simpl in *.
  - destruct Hb as (t & E & H). exists t. split; [exact E | lia].
  - eapply extends_by_trans; [exact Hb | apply Hh].
  - destruct Hb as (t & E & H). exists t. split; [exact E | lia].
Qed.

Lemma calls_try_except_Timeout a b {A} (body handler : M A) :
  calls_at_most a body -> calls_at_most b handler ->
  calls_at_most (a + b) (try_except_Timeout body handler).
Proof.
  intros Hb Hh m. unfold try_except_Timeout. specialize (Hb m).
  destruct (body m) as [[x | e |] m1]; simpl in *.
  - destruct Hb as (t & E & H). exists t. split; [exact E | lia].
  - destruct Hb as (t & E & H). exists t. split; [exact E | lia].
  - eapply extends_by_trans; [exact Hb | apply Hh].
Qed.

Lemma calls_try_finally a b {A} (body : M A) final :
  calls_at_most a body -> calls_at_most b final ->
  calls_at_most (a + b) (try_finally body final).
Proof.
  intros Hb Hf m. unfold try_finally. specialize (Hb m).
  destruct (body m) as [o m1]; simpl in *. specialize (Hf m1).
  destruct (final m1) as [[x | e |] m2]; simpl in *;
    eapply extends_by_trans; eauto.
Qed.

Lemma calls_with_timeout n {A} seconds expiry (f : M A) :
  calls_at_most n f -> calls_at_most n (with_timeout seconds expiry f).
Proof.
  intros H m. unfold with_timeout. specialize (H (set_timer expiry m)).
  destruct (f _) as [o m1]; simpl in *. exact H.
Qed.

(** Splits a goal [calls_at_most 0 c] along the structure of [c]. *)
Ltac quiet_rule :=
  lazymatch goal with
  | |- calls_at_most _ (bind _ _) => apply (calls_bind 0 0)
  | |- calls_at_most _ (ret _) => apply calls_ret
  | |- calls_at_most _ (raise _) => apply calls_raise
  | |- calls_at_most _ get_self => apply calls_get_self
  | |- calls_at_most _ get_response => apply calls_get_response
  | |- calls_at_most _ sleep0 => apply calls_sleep0
  | |- calls_at_most _ (emit _) => apply calls_emit; simpl; lia
  | |- calls_at_most _ (call _) => apply calls_call
  | |- calls_at_most _ (io _) => apply calls_io
  | |- calls_at_most _ (with_lock _ _) => apply calls_with_lock
  | |- calls_at_most _ (modify_response _) => apply calls_modify_response
  | |- calls_at_most _ (modify_self _) => apply calls_modify_self
  | |- calls_at_most _ (if ?b then _ else _) => destruct b
  | |- calls_at_most _ (match ?x with _ => _ end) => destruct x
  | |- forall _, _ => intros ?
  end.

Lemma gevent_from_pool_quiet url http_request :
  calls_at_most 0 (gevent_from_pool url http_request).
Proof. unfold gevent_from_pool. cbv zeta. repeat (quiet_rule; cbv zeta). Qed.

Lemma urllib3_from_pool_quiet http_request :
  calls_at_most 0 (urllib3_from_pool http_request).
Proof. unfold urllib3_from_pool. cbv zeta. repeat (quiet_rule; cbv zeta). Qed.

Lemma gevent_process_quiet response : calls_at_most 0 (gevent_process response).
Proof. unfold gevent_process. repeat (quiet_rule; cbv zeta). Qed.

Lemma u3_process_quiet reply : calls_at_most 0 (u3_process reply).
Proof. unfold u3_process. repeat (quiet_rule; cbv zeta). Qed.

Ltac quiet :=
  cbv zeta;
  repeat (first [ apply gevent_from_pool_quiet | apply urllib3_from_pool_quiet
                | apply gevent_process_quiet | apply u3_process_quiet
                | quiet_rule ]; cbv zeta).

Lemma gevent_call_once w http verb uri body headers :
  calls_at_most 1 (gevent_call w http verb uri body headers).
Proof.
  unfold gevent_call.
  apply (calls_bind 1 0); [apply calls_emit; simpl; lia | intros; apply calls_io].
Qed.

Lemma u3_urlopen_once w conn method url body headers :
  calls_at_most 1 (u3_urlopen w conn method url body headers).
Proof.
  unfold u3_urlopen.
  apply (calls_bind 1 0); [apply calls_emit; simpl; lia | intros; apply calls_io].
Qed.

Lemma gevent_fire_once w http url r : calls_at_most 1 (gevent_fire w http url r).
Proof.
  unfold gevent_fire. cbv zeta.
  repeat match goal with
         | |- calls_at_most _ (if ?b then _ else _) => destruct b
         end;
    first [apply gevent_call_once | apply calls_raise].
Qed.

Lemma u3_fire_once w conn r : calls_at_most 1 (u3_fire w conn r).
Proof.
  unfold u3_fire. cbv zeta.
  repeat match goal with
         | |- calls_at_most _ (if ?b then _ else _) => destruct b
         end;
    first [apply u3_urlopen_once | apply calls_raise].
Qed.

(** Splits a goal [calls_at_most 1 c]: the one call is on one side of a
    sequence, and never in a handler. *)
Ltac once_rule :=
  lazymatch goal with
  | |- calls_at_most _ (gevent_fire _ _ _ _) => apply gevent_fire_once
  | |- calls_at_most _ (u3_fire _ _ _) => apply u3_fire_once
  | |- calls_at_most _ (bind _ _) =>
      first [ apply (calls_bind 0 1); [solve [quiet] | intros ?]
            | apply (calls_bind 1 0); [| intros ?; solve [quiet]] ]
  | |- calls_at_most _ (try_except_Exception _ _) =>
      apply (calls_try_except_Exception 1 0); [| intros ?; solve [quiet]]
  | |- calls_at_most _ (try_except_Timeout _ _) =>
      apply (calls_try_except_Timeout 1 0); [| solve [quiet]]
  | |- calls_at_most _ (try_finally _ _) =>
      apply (calls_try_finally 1 0); [| solve [quiet]]
  | |- calls_at_most _ (with_timeout _ _ _) => apply calls_with_timeout
  | |- calls_at_most _ (raise _) => apply calls_raise
  | |- calls_at_most _ (if ?b then _ else _) => destruct b
  end.

Lemma go_gevent_once w r : calls_at_most 1 (_go_gevent w r).
Proof. unfold _go_gevent. repeat (once_rule; cbv zeta). Qed.

Lemma go_urllib3_once w r : calls_at_most 1 (_go_urllib3 w r).
Proof. unfold _go_urllib3. repeat (once_rule; cbv zeta). Qed.

Lemma go_http_internal_once w r : calls_at_most 1 (_go_http_internal w r).
Proof.
  unfold _go_http_internal, _go_http_internal_try.
  repeat (first [ apply go_gevent_once | apply go_urllib3_once | once_rule ];
          cbv zeta).
Qed.

(** X14: whatever the request, the servers and the deadline, and however
    the call ends, [go_http] only adds events, and at most one of them is a
    call to a backend: a request is never sent twice, nor to both backends. *)
Theorem go_http_calls_once w r m :
  exists added,
    trace (go_http w r m).2 = (trace m ++ added)%list /\
    (backend_calls added <= 1)%nat.
Proof.
  revert m. change (calls_at_most 1 (go_http w r)).
  unfold go_http.
  repeat (first [ apply go_http_internal_once | once_rule ]; cbv zeta).
Qed.

(** ** The switches of one request *)

Lemma spent_refl n t : spent n t t.
Proof. destruct t; simpl; [lia | exact I]. Qed.

Lemma spent_mono a b t t' : (a <= b)%nat -> spent a t t' -> spent b t t'.
Proof. destruct t, t'; simpl; try tauto. lia. Qed.

Lemma spent_trans a b t1 t2 t3 :
  spent a t1 t2 -> spent b t2 t3 -> spent (a + b) t1 t3.
Proof. destruct t1, t2, t3; simpl; try tauto. lia. Qed.

Lemma covers_mono a b t : (a <= b)%nat -> covers b t -> covers a t.
Proof. destruct t; simpl; [lia | tauto]. Qed.

Lemma covers_after a b t t' : covers (a + b) t -> spent a t t' -> covers b t'.
Proof. destruct t, t'; simpl; try tauto. lia. Qed.

Lemma switches_mono a b {A} (c : M A) :
  (a <= b)%nat -> switches_at_most a c -> switches_at_most b c.
Proof.
  intros Hab H m Hm. destruct (H m (covers_mono _ _ _ Hab Hm)) as [Ho Hs].
  split; [exact Ho | exact (spent_mono _ _ _ _ Hab Hs)].
Qed.

Lemma switches_ret n {A} (a : A) : switches_at_most n (ret a).
Proof. intros m _. split; [discriminate | apply spent_refl]. Qed.

Lemma switches_raise n {A} e : switches_at_most n (@raise A e).
Proof. intros m _. split; [discriminate | apply spent_refl]. Qed.

Lemma switches_get_self n : switches_at_most n get_self.
Proof. intros m _. split; [discriminate | apply spent_refl]. Qed.

Lemma switches_modify_response n f : switches_at_most n (modify_response f).
Proof. intros m _. split; [discriminate | apply spent_refl]. Qed.

Lemma switches_modify_self n f : switches_at_most n (modify_self f).
Proof. intros m _. split; [discriminate | apply spent_refl]. Qed.

Lemma switches_emit n e : switches_at_most n (emit e).
Proof. intros m _. split; [discriminate | apply spent_refl]. Qed.

Lemma switches_call n {A} (r : Try A) : switches_at_most n (call r).
Proof. destruct r; [apply switches_ret | apply switches_raise]. Qed.

Lemma switches_sleep0 n : switches_at_most (S n) sleep0.
Proof.
  intros m. unfold sleep0. destruct (timer m) as [[|k]|] eqn:E; simpl; rewrite ?E.
  - lia.
  - intros _. split; [discriminate | lia].
  - intros _. split; [discriminate | exact I].
Qed.

Lemma switches_bind a b {A B} (c : M A) (k : A -> M B) :
  switches_at_most a c -> (forall x, switches_at_most b (k x)) ->
  switches_at_most (a + b) (bind c k).
Proof.
  intros Hc Hk m Hm. unfold bind.
  assert (a <= a + b)%nat as Hab by lia.
  destruct (Hc m (covers_mono _ _ _ Hab Hm)) as [Ho Hs].
  destruct (c m) as [[x | e |] m1]; simpl in *.
  - destruct (Hk x m1 (covers_after _ _ _ _ Hm Hs)) as [Ho' Hs'].
    split; [exact Ho' | exact (spent_trans _ _ _ _ _ Hs Hs')].
  - split; [discriminate | exact (spent_mono _ _ _ _ Hab Hs)].
  - congruence.
Qed.

Lemma switches_io n {A} (r : Try A) : switches_at_most (S n) (io r).
Proof.
  apply (switches_bind 1 n); [apply switches_sleep0 | intros; apply switches_call].
Qed.

Lemma switches_with_lock n {A} l (body : M A) :
  switches_at_most n body -> switches_at_most n (with_lock l body).
Proof.
  intros H m Hm. unfold with_lock.
  specialize (H (set_trace (trace m ++ [Acquire l]) m) Hm).
  destruct (body _) as [o m1]; simpl in *. exact H.
Qed.

Lemma switches_try_except_Exception a b {A} (body : M A) handler :
  switches_at_most a body -> (forall e, switches_at_most b (handler e)) ->
  switches_at_most (a + b) (try_except_Exception body handler).
Proof.
  intros Hb Hh m Hm. unfold try_except_Exception.
  assert (a <= a + b)%nat as Hab by lia.
  destruct (Hb m (covers_mono _ _ _ Hab Hm)) as [Ho Hs].
  destruct (body m) as [[x | e |] m1]; simpl in *.
  - split; [discriminate | exact (spent_mono _ _ _ _ Hab Hs)].
  - destruct (Hh e m1 (covers_after _ _ _ _ Hm Hs)) as [Ho' Hs'].
    split; [exact Ho' | exact (spent_trans _ _ _ _ _ Hs Hs')].
  - congruence.
Qed.

(** Splits a goal [switches_at_most n c] for a [c] that does not switch. *)
Ltac still_rule :=
  lazymatch goal with
  | |- switches_at_most ?n (bind _ _) => apply (switches_bind 0 n)
  | |- switches_at_most _ (ret _) => apply switches_ret
  | |- switches_at_most _ (raise _) => apply switches_raise
  | |- switches_at_most _ get_self => apply switches_get_self
  | |- switches_at_most _ (emit _) => apply switches_emit
  | |- switches_at_most _ (call _) => apply switches_call
  | |- switches_at_most _ (modify_response _) => apply switches_modify_response
  | |- switches_at_most _ (modify_self _) => apply switches_modify_self
  | |- switches_at_most _ (if ?b then _ else _) => destruct b
  | |- forall _, _ => intros ?
  end.

Ltac still := cbv zeta; repeat (still_rule; cbv zeta).

(** Splits a goal [switches_at_most n c] along the sequence [c]: each step
    switches once, or not at all. *)
Ltac switch_rule one_switch :=
  lazymatch goal with
  | |- switches_at_most (S ?n) (bind _ _) =>
      first [ apply (switches_bind 0 (S n)); [solve [still] | intros ?]
            | apply (switches_bind 1 n); [solve [one_switch] | intros ?] ]
  | |- switches_at_most 0 (bind _ _) =>
      apply (switches_bind 0 0); [solve [still] | intros ?]
  | |- switches_at_most _ (with_lock _ _) => apply switches_with_lock
  | |- switches_at_most _ (if ?b then _ else _) => destruct b
  | |- switches_at_most _ (match ?x with _ => _ end) => destruct x
  | |- _ => first [one_switch | still_rule]
  end.

Ltac basic_switch := first [apply switches_sleep0 | apply switches_io].

Lemma gevent_from_pool_switches n url http_request :
  switches_at_most (S n) (gevent_from_pool url http_request).
Proof. unfold gevent_from_pool. cbv zeta. repeat (switch_rule basic_switch; cbv zeta). Qed.

Lemma urllib3_from_pool_switches n http_request :
  switches_at_most (S n) (urllib3_from_pool http_request).
Proof. unfold urllib3_from_pool. cbv zeta. repeat (switch_rule basic_switch; cbv zeta). Qed.

Lemma gevent_fire_switches n w http url r :
  switches_at_most (S n) (gevent_fire w http url r).
Proof.
  unfold gevent_fire, gevent_call. cbv zeta.
  repeat (switch_rule basic_switch; cbv zeta).
Qed.

Lemma u3_fire_switches n w conn r : switches_at_most (S n) (u3_fire w conn r).
Proof.
  unfold u3_fire, u3_urlopen. cbv zeta.
  repeat (switch_rule basic_switch; cbv zeta).
Qed.

Lemma gevent_process_switches response :
  switches_at_most 3 (gevent_process response).
Proof. unfold gevent_process. repeat (switch_rule basic_switch; cbv zeta). Qed.

Lemma u3_process_switches reply : switches_at_most 1 (u3_process reply).
Proof. unfold u3_process. repeat (switch_rule basic_switch; cbv zeta). Qed.

Ltac backend_switch :=
  first [ apply switches_sleep0 | apply switches_io
        | apply gevent_from_pool_switches | apply urllib3_from_pool_switches
        | apply gevent_fire_switches | apply u3_fire_switches
        | apply gevent_process_switches | apply u3_process_switches ].

(** The gevent backend switches eight times at most, the urllib3 backend
    seven times. *)
Lemma go_gevent_switches w r : switches_at_most 8 (_go_gevent w r).
Proof. unfold _go_gevent. repeat (switch_rule backend_switch; cbv zeta). Qed.

Lemma go_urllib3_switches w r : switches_at_most 7 (_go_urllib3 w r).
Proof. unfold _go_urllib3. repeat (switch_rule backend_switch; cbv zeta). Qed.

Lemma go_http_internal_switches w r : switches_at_most 10 (_go_http_internal w r).
Proof.
  unfold _go_http_internal, _go_http_internal_try.
  apply (switches_try_except_Exception 10 0); [| intros e; still].
  apply (switches_bind 0 10); [apply switches_call | intros url].
  apply (switches_bind 1 9); [apply switches_sleep0 | intros _]. cbv zeta.
  destruct (decide _); [| destruct (decide _)].
  - apply (switches_bind 8 1); [apply go_gevent_switches | intros; apply switches_sleep0].
  - apply (switches_bind 8 1); [| intros; apply switches_sleep0].
    apply (switches_mono 7); [lia | apply go_urllib3_switches].
  - apply switches_raise.
Qed.

(** X15: the timeout reaches the call only at a switch to the hub, and one
    request goes through ten of them at most; so when the deadline leaves
    room for ten switches (or never expires), no timeout error is ever made:
    [go_http] returns a response without exception, or raises. *)
Theorem generous_deadline_never_fires w r m :
  covers 10 (deadline w) ->
  (_go_http_internal w r (armed w r m)).1 <> RaiseTimeout /\
  (forall q,
     HttpResponse.exception (http_response (go_http w r m).2)
     <> Some (TimeoutWhileProcessing q)) /\
  (forall resp,
     (go_http w r m).1 = Return resp -> HttpResponse.exception resp = None).
Proof.
  intros Hroom.
  destruct (go_http_internal_switches w r (armed w r m) Hroom) as [Hover _].
  split; [exact Hover |].
  pose proof (go_http_internal_raises w r (armed w r m)) as Hraises.
  pose proof (go_http_internal_try_same_exception w r (armed w r m)) as Hframe.
  unfold same_on in Hframe. rewrite go_http_unfold; cbv zeta.
  revert Hover Hraises. rewrite go_http_internal_unfold.
  destruct (_go_http_internal_try w r (armed w r m)) as [[[] | e |] m1];
    simpl in *; intros Hover Hraises.
  - rewrite Hframe. split; [discriminate |].
    intros resp E; inversion E; subst. simpl. exact Hframe.
  - split; [| discriminate].
    intros q E; inversion E; subst. exact (Hraises _ eq_refl).
  - congruence.
Qed.

(** A deadline of ten switches lets the gevent backend finish. *)
Lemma generous_deadline_never_fires_witness :
  exists resp,
    (go_http Sample.ten Sample.get_gevent (start HttpClient__init__ None)).1
    = Return resp /\
    HttpResponse.exception resp = None.
Proof.
  destruct (generous_deadline_never_fires Sample.ten Sample.get_gevent
              (start HttpClient__init__ None)) as (_ & _ & H).
  - simpl. lia.
  - eexists. split; [vm_compute; reflexivity |].
    apply H. vm_compute. reflexivity.
Defined.

(** Ten is the least such number: a deadline of nine switches expires in
    the last switch of a request through the gevent backend. *)
Lemma nine_switches_too_few :
  HttpResponse.exception
    (http_response
       (go_http Sample.nine Sample.get_gevent (start HttpClient__init__ None)).2)
  = Some (TimeoutWhileProcessing (general_timeout_sec Sample.get_gevent)).
Proof. vm_compute. reflexivity. Qed.

(** ** A call of the urllib3 backend that fails *)

(** X16: once [_go_urllib3] has its connection and sends its call, an
    exception of [urlopen] ends it right after the call with the response
    object as it was when the connection was found: nothing of the reply is
    stored unless the whole reply came; a reply makes it return. *)
Theorem urllib3_failed_call w r m conn m1 method body :
  u3_ready w r m conn m1 ->
  u3_fire w conn r
  = u3_urlopen w conn method (HttpRequest.uri r) body (HttpRequest.headers r) ->
  match urlopen w conn method (HttpRequest.uri r) body (HttpRequest.headers r) with
  | Err what =>
      _go_urllib3 w r m
      = (RaiseException (CollaboratorError what),
         set_trace (trace m1 ++ [EvUrlopen conn method (HttpRequest.uri r) body
                                           (HttpRequest.headers r)])%list m1)
  | Ok reply => (_go_urllib3 w r m).1 = Return tt
  end.
Proof.
  intros (Ht & pool & Hpool & Hconn) Hfire.
  pose proof (urllib3_from_pool_no_timer r (entered HTTP_IMPL_URLLIB3 m) Ht) as Ht1.
  rewrite Hpool in Ht1; simpl in Ht1.
  rewrite (go_urllib3_reaches_fire w r m pool conn m1 Ht Hpool Hconn), Hfire.
  destruct m1 as [c response0 t events]; simpl in Ht1; subst t.
  unfold u3_urlopen, io, bind, emit, sleep0, call; simpl.
  destruct (urlopen w conn method (HttpRequest.uri r) body (HttpRequest.headers r))
    as [reply|what]; reflexivity.
Qed.

(** The server refuses the connection. *)
Lemma urllib3_failed_call_witness :
  let result :=
    _go_urllib3 Sample.refusing (Sample.send HTTP_IMPL_URLLIB3 None None)
                (start HttpClient__init__ None) in
  result.1 = RaiseException (CollaboratorError "connection refused") /\
  HttpResponse.status_code (http_response result.2) = 0%Z /\
  HttpResponse.buffer (http_response result.2) = None.
Proof.
  cbv zeta.
  pose proof (urllib3_failed_call Sample.refusing
                (Sample.send HTTP_IMPL_URLLIB3 None None)
                (start HttpClient__init__ None) Sample.connection
                (urllib3_from_pool (Sample.send HTTP_IMPL_URLLIB3 None None)
                   (entered HTTP_IMPL_URLLIB3 (start HttpClient__init__ None))).2
                "GET" NoBody) as H.
  cbn [urlopen Sample.refusing] in H.
  rewrite H.
  - repeat split.
  - split; [reflexivity |]. eexists. split; [vm_compute; reflexivity |].
    vm_compute. reflexivity.
  - reflexivity.
Defined.
